(** * cbits/stubs.h: the declaration surface of the CUDA bindings

    The header is a list of preprocessor directives and C function
    prototypes.  It is embedded here as the parse of the file along the C
    grammar (translation unit, if-sections, external declarations), together
    with the part of the C preprocessor the file uses: a macro table,
    [#define], [#undef], [#include], [#ifdef], [#ifndef] and
    [#if X >= n]. *)

From stdpp Require Import base strings list gmap fin_maps.

Local Open Scope Z_scope.

(** ** C types and prototypes *)

Inductive ctype :=
  | TVoid
  | TChar
  | TUChar
  | TUShort
  | TInt
  | TUInt
  | TNamed (t : string)
  | TConst (t : ctype)
  | TPtr (t : ctype).

Global Instance ctype_eq_dec : EqDecision ctype.
Proof. solve_decision. Defined.

(** A prototype: return type, calling-convention annotation (the macro
    written between the return type and the name, if any), name, and the
    parameters in order with their names. *)
Record fundecl := Fun {
  ret : ctype;
  conv : option string;
  name : string;
  params : list (ctype * string)
}.

Global Instance fundecl_eq_dec : EqDecision fundecl.
Proof. solve_decision. Defined.

Definition param_types (d : fundecl) : list ctype := (params d).*1.
Definition param_names (d : fundecl) : list string := (params d).*2.

(** Type names the header takes from the SDK and from the C library. *)
Definition size_t := TNamed "size_t".
Definition cudaError_t := TNamed "cudaError_t".
Definition cudaStream_t := TNamed "cudaStream_t".
Definition CUresult := TNamed "CUresult".
Definition CUdevice := TNamed "CUdevice".
Definition CUdeviceptr := TNamed "CUdeviceptr".
Definition CUcontext := TNamed "CUcontext".
Definition CUmodule := TNamed "CUmodule".
Definition CUstream := TNamed "CUstream".
Definition CUevent := TNamed "CUevent".
Definition CUarray := TNamed "CUarray".
Definition CUarray_format := TNamed "CUarray_format".
Definition CUtexref := TNamed "CUtexref".
Definition CUgraphicsResource := TNamed "CUgraphicsResource".
Definition CUjit_option := TNamed "CUjit_option".
Definition CUjitInputType := TNamed "CUjitInputType".
Definition CUlinkState := TNamed "CUlinkState".
Definition CUDA_MEMCPY2D := TNamed "CUDA_MEMCPY2D".
Definition CUDA_MEMCPY3D := TNamed "CUDA_MEMCPY3D".
Definition CUDA_ARRAY_DESCRIPTOR := TNamed "CUDA_ARRAY_DESCRIPTOR".
Definition CUDA_ARRAY3D_DESCRIPTOR := TNamed "CUDA_ARRAY3D_DESCRIPTOR".

Definition CUDAAPI : option string := Some "CUDAAPI".

(** ** The file as a tree of preprocessor groups *)

(** Replacement list of a macro. *)
Inductive body :=
  | Empty
  | Int (z : Z)
  | Tokens (s : string).

Inductive cond :=
  | Ifdef (x : string)
  | Ifndef (x : string)
  | IfGe (x : string) (n : Z).

Global Instance cond_eq_dec : EqDecision cond.
Proof. solve_decision. Defined.

(** External declarations of C: a prototype, a function definition (a
    prototype followed by a body) and an object declaration. *)
Inductive extdecl :=
  | Proto (d : fundecl)
  | FunDef (d : fundecl)
  | ObjDef (t : ctype) (x : string).

Global Instance extdecl_eq_dec : EqDecision extdecl.
Proof. solve_decision. Defined.

(** Text lines: the opening of a C linkage block, a closing brace, or an
    external declaration. *)
Inductive text :=
  | LinkageOpen
  | CloseBrace
  | Decl (e : extdecl).

(** Comments.  The file comments out three [#undef] lines and a number of
    prototypes; those are kept apart from prose. *)
Inductive remark :=
  | Prose (s : string)
  | NoUndef (x : string)
  | NoProto (d : fundecl).

Local Unset Elimination Schemes.
Inductive item :=
  | Define (x : string) (b : body)
  | Undef (x : string)
  | Include (h : string)
  | Text (t : text)
  | Remark (r : remark)
  | IfSection (c : cond) (group : list item).
Local Set Elimination Schemes.

(** Induction on items, with the items of a section as hypotheses. *)
Section item_induction.

Variable P : item → Prop.
Hypothesis P_define : ∀ x b, P (Define x b).
Hypothesis P_undef : ∀ x, P (Undef x).
Hypothesis P_include : ∀ h, P (Include h).
Hypothesis P_text : ∀ t, P (Text t).
Hypothesis P_remark : ∀ r, P (Remark r).
Hypothesis P_section : ∀ c group, Forall P group → P (IfSection c group).

Fixpoint item_nested_ind (it : item) : P it :=
  match it with
  | Define x b => P_define x b
  | Undef x => P_undef x
  | Include h => P_include h
  | Text t => P_text t
  | Remark r => P_remark r
  | IfSection c group =>
      P_section c group
        ((fix all (l : list item) : Forall P l :=
            match l with
            | [] => List.Forall_nil P
            | it :: l => @List.Forall_cons _ P it l (item_nested_ind it) (all l)
            end) group)
  end.

End item_induction.

(** ** The simplified wrappers (lines 22 to 98) *)

Definition cudaConfigureCallSimple : fundecl :=
  Fun cudaError_t None "cudaConfigureCallSimple"
    [ (TInt, "gridX"); (TInt, "gridY");
      (TInt, "blockX"); (TInt, "blockY"); (TInt, "blockZ");
      (size_t, "sharedMem");
      (cudaStream_t, "stream") ].

Definition cuTexRefSetAddress2DSimple : fundecl :=
  Fun CUresult None "cuTexRefSetAddress2DSimple"
    [ (CUtexref, "tex");
      (CUarray_format, "format");
      (TUInt, "numChannels");
      (CUdeviceptr, "dptr");
      (size_t, "width");
      (size_t, "height");
      (size_t, "pitch") ].

Definition cuMemcpy2DHtoD : fundecl :=
  Fun CUresult None "cuMemcpy2DHtoD"
    [ (CUdeviceptr, "dstDevice"); (TUInt, "dstPitch"); (TUInt, "dstXInBytes"); (TUInt, "dstY");
      (TPtr TVoid, "srcHost"); (TUInt, "srcPitch"); (TUInt, "srcXInBytes"); (TUInt, "srcY");
      (TUInt, "widthInBytes");
      (TUInt, "height") ].

Definition cuMemcpy2DHtoDAsync : fundecl :=
  Fun CUresult None "cuMemcpy2DHtoDAsync"
    [ (CUdeviceptr, "dstDevice"); (TUInt, "dstPitch"); (TUInt, "dstXInBytes"); (TUInt, "dstY");
      (TPtr TVoid, "srcHost"); (TUInt, "srcPitch"); (TUInt, "srcXInBytes"); (TUInt, "srcY");
      (TUInt, "widthInBytes");
      (TUInt, "height");
      (CUstream, "hStream") ].

Definition cuMemcpy2DDtoH : fundecl :=
  Fun CUresult None "cuMemcpy2DDtoH"
    [ (TPtr TVoid, "dstHost"); (TUInt, "dstPitch"); (TUInt, "dstXInBytes"); (TUInt, "dstY");
      (CUdeviceptr, "srcDevice"); (TUInt, "srcPitch"); (TUInt, "srcXInBytes"); (TUInt, "srcY");
      (TUInt, "widthInBytes");
      (TUInt, "height") ].

Definition cuMemcpy2DDtoHAsync : fundecl :=
  Fun CUresult None "cuMemcpy2DDtoHAsync"
    [ (TPtr TVoid, "dstHost"); (TUInt, "dstPitch"); (TUInt, "dstXInBytes"); (TUInt, "dstY");
      (CUdeviceptr, "srcDevice"); (TUInt, "srcPitch"); (TUInt, "srcXInBytes"); (TUInt, "srcY");
      (TUInt, "widthInBytes");
      (TUInt, "height");
      (CUstream, "hStream") ].

Definition cuMemcpy2DDtoD : fundecl :=
  Fun CUresult None "cuMemcpy2DDtoD"
    [ (CUdeviceptr, "dstDevice"); (TUInt, "dstPitch"); (TUInt, "dstXInBytes"); (TUInt, "dstY");
      (CUdeviceptr, "srcDevice"); (TUInt, "srcPitch"); (TUInt, "srcXInBytes"); (TUInt, "srcY");
      (TUInt, "widthInBytes");
      (TUInt, "height") ].

Definition cuMemcpy2DDtoDAsync : fundecl :=
  Fun CUresult None "cuMemcpy2DDtoDAsync"
    [ (CUdeviceptr, "dstDevice"); (TUInt, "dstPitch"); (TUInt, "dstXInBytes"); (TUInt, "dstY");
      (CUdeviceptr, "srcDevice"); (TUInt, "srcPitch"); (TUInt, "srcXInBytes"); (TUInt, "srcY");
      (TUInt, "widthInBytes");
      (TUInt, "height");
      (CUstream, "hStream") ].

Definition wrappers : list fundecl :=
  [ cudaConfigureCallSimple; cuTexRefSetAddress2DSimple;
    cuMemcpy2DHtoD; cuMemcpy2DHtoDAsync;
    cuMemcpy2DDtoH; cuMemcpy2DDtoHAsync;
    cuMemcpy2DDtoD; cuMemcpy2DDtoDAsync ].

(** ** The re-exported entry points (lines 105 to 217) *)

Definition block_3020 : list item :=
  [ Undef "cuDeviceTotalMem";
    Undef "cuCtxCreate";
    Undef "cuModuleGetGlobal";
    Undef "cuMemGetInfo";
    Undef "cuMemAlloc";
    Undef "cuMemAllocPitch";
    Undef "cuMemFree";
    Undef "cuMemGetAddressRange";
    Undef "cuMemAllocHost";
    Undef "cuMemHostGetDevicePointer";
    Undef "cuMemcpyHtoD";
    Undef "cuMemcpyDtoH";
    Undef "cuMemcpyDtoD";
    Undef "cuMemcpyDtoA";
    Undef "cuMemcpyAtoD";
    Undef "cuMemcpyHtoA";
    Undef "cuMemcpyAtoH";
    Undef "cuMemcpyAtoA";
    Undef "cuMemcpyHtoAAsync";
    Undef "cuMemcpyAtoHAsync";
    Remark (NoUndef "cuMemcpy2D");
    Undef "cuMemcpy2DUnaligned";
    Undef "cuMemcpy3D";
    Undef "cuMemcpyHtoDAsync";
    Undef "cuMemcpyDtoHAsync";
    Undef "cuMemcpyDtoDAsync";
    Remark (NoUndef "cuMemcpy2DAsync");
    Undef "cuMemcpy3DAsync";
    Undef "cuMemsetD8";
    Undef "cuMemsetD16";
    Undef "cuMemsetD32";
    Undef "cuMemsetD2D8";
    Undef "cuMemsetD2D16";
    Undef "cuMemsetD2D32";
    Undef "cuArrayCreate";
    Undef "cuArrayGetDescriptor";
    Undef "cuArray3DCreate";
    Undef "cuArray3DGetDescriptor";
    Undef "cuTexRefSetAddress";
    Remark (NoUndef "cuTexRefSetAddress2D");
    Undef "cuTexRefGetAddress";
    Undef "cuGraphicsResourceGetMappedPointer";

    Text (Decl (Proto (Fun CUresult CUDAAPI "cuDeviceTotalMem"
      [(TPtr size_t, "bytes"); (CUdevice, "dev")])));
    Text (Decl (Proto (Fun CUresult CUDAAPI "cuCtxCreate"
      [(TPtr CUcontext, "pctx"); (TUInt, "flags"); (CUdevice, "dev")])));
    Text (Decl (Proto (Fun CUresult CUDAAPI "cuModuleGetGlobal"
      [(TPtr CUdeviceptr, "dptr"); (TPtr size_t, "bytes"); (CUmodule, "hmod");
       (TPtr (TConst TChar), "name")])));
    Text (Decl (Proto (Fun CUresult CUDAAPI "cuMemGetInfo"
      [(TPtr size_t, "free"); (TPtr size_t, "total")])));
    Text (Decl (Proto (Fun CUresult CUDAAPI "cuMemAlloc"
      [(TPtr CUdeviceptr, "dptr"); (size_t, "bytesize")])));
    Remark (NoProto (Fun CUresult CUDAAPI "cuMemAllocPitch"
      [(TPtr CUdeviceptr, "dptr"); (TPtr TUInt, "pPitch"); (TUInt, "WidthInBytes");
       (TUInt, "Height"); (TUInt, "ElementSizeBytes")]));
    Text (Decl (Proto (Fun CUresult CUDAAPI "cuMemFree"
      [(CUdeviceptr, "dptr")])));
    Text (Decl (Proto (Fun CUresult CUDAAPI "cuMemGetAddressRange"
      [(TPtr CUdeviceptr, "pbase"); (TPtr size_t, "psize"); (CUdeviceptr, "dptr")])));
    Remark (NoProto (Fun CUresult CUDAAPI "cuMemAllocHost"
      [(TPtr (TPtr TVoid), "pp"); (TUInt, "bytesize")]));
    Text (Decl (Proto (Fun CUresult CUDAAPI "cuMemHostGetDevicePointer"
      [(TPtr CUdeviceptr, "pdptr"); (TPtr TVoid, "p"); (TUInt, "Flags")])));
    Text (Decl (Proto (Fun CUresult CUDAAPI "cuMemcpyHtoD"
      [(CUdeviceptr, "dstDevice"); (TPtr (TConst TVoid), "srcHost"); (size_t, "ByteCount")])));
    Text (Decl (Proto (Fun CUresult CUDAAPI "cuMemcpyDtoH"
      [(TPtr TVoid, "dstHost"); (CUdeviceptr, "srcDevice"); (size_t, "ByteCount")])));
    Text (Decl (Proto (Fun CUresult CUDAAPI "cuMemcpyDtoD"
      [(CUdeviceptr, "dstDevice"); (CUdeviceptr, "srcDevice"); (size_t, "ByteCount")])));
    Remark (NoProto (Fun CUresult CUDAAPI "cuMemcpyDtoA"
      [(CUarray, "dstArray"); (TUInt, "dstOffset"); (CUdeviceptr, "srcDevice");
       (TUInt, "ByteCount")]));
    Remark (NoProto (Fun CUresult CUDAAPI "cuMemcpyAtoD"
      [(CUdeviceptr, "dstDevice"); (CUarray, "srcArray"); (TUInt, "srcOffset");
       (TUInt, "ByteCount")]));
    Remark (NoProto (Fun CUresult CUDAAPI "cuMemcpyHtoA"
      [(CUarray, "dstArray"); (TUInt, "dstOffset"); (TPtr (TConst TVoid), "srcHost");
       (TUInt, "ByteCount")]));
    Remark (NoProto (Fun CUresult CUDAAPI "cuMemcpyAtoH"
      [(TPtr TVoid, "dstHost"); (CUarray, "srcArray"); (TUInt, "srcOffset");
       (TUInt, "ByteCount")]));
    Remark (NoProto (Fun CUresult CUDAAPI "cuMemcpyAtoA"
      [(CUarray, "dstArray"); (TUInt, "dstOffset"); (CUarray, "srcArray");
       (TUInt, "srcOffset"); (TUInt, "ByteCount")]));
    Remark (NoProto (Fun CUresult CUDAAPI "cuMemcpyHtoAAsync"
      [(CUarray, "dstArray"); (TUInt, "dstOffset"); (TPtr (TConst TVoid), "srcHost");
       (TUInt, "ByteCount"); (CUstream, "hStream")]));
    Remark (NoProto (Fun CUresult CUDAAPI "cuMemcpyAtoHAsync"
      [(TPtr TVoid, "dstHost"); (CUarray, "srcArray"); (TUInt, "srcOffset");
       (TUInt, "ByteCount"); (CUstream, "hStream")]));
    Remark (NoProto (Fun CUresult CUDAAPI "cuMemcpy2D"
      [(TPtr (TConst CUDA_MEMCPY2D), "pCopy")]));
    Remark (NoProto (Fun CUresult CUDAAPI "cuMemcpy2DUnaligned"
      [(TPtr (TConst CUDA_MEMCPY2D), "pCopy")]));
    Remark (NoProto (Fun CUresult CUDAAPI "cuMemcpy3D"
      [(TPtr (TConst CUDA_MEMCPY3D), "pCopy")]));
    Text (Decl (Proto (Fun CUresult CUDAAPI "cuMemcpyHtoDAsync"
      [(CUdeviceptr, "dstDevice"); (TPtr (TConst TVoid), "srcHost"); (size_t, "ByteCount");
       (CUstream, "hStream")])));
    Text (Decl (Proto (Fun CUresult CUDAAPI "cuMemcpyDtoHAsync"
      [(TPtr TVoid, "dstHost"); (CUdeviceptr, "srcDevice"); (size_t, "ByteCount");
       (CUstream, "hStream")])));
    Text (Decl (Proto (Fun CUresult CUDAAPI "cuMemcpyDtoDAsync"
      [(CUdeviceptr, "dstDevice"); (CUdeviceptr, "srcDevice"); (size_t, "ByteCount");
       (CUstream, "hStream")])));
    Remark (NoProto (Fun CUresult CUDAAPI "cuMemcpy2DAsync"
      [(TPtr (TConst CUDA_MEMCPY2D), "pCopy"); (CUstream, "hStream")]));
    Remark (NoProto (Fun CUresult CUDAAPI "cuMemcpy3DAsync"
      [(TPtr (TConst CUDA_MEMCPY3D), "pCopy"); (CUstream, "hStream")]));
    Text (Decl (Proto (Fun CUresult CUDAAPI "cuMemsetD8"
      [(CUdeviceptr, "dstDevice"); (TUChar, "uc"); (size_t, "N")])));
    Text (Decl (Proto (Fun CUresult CUDAAPI "cuMemsetD16"
      [(CUdeviceptr, "dstDevice"); (TUShort, "us"); (size_t, "N")])));
    Text (Decl (Proto (Fun CUresult CUDAAPI "cuMemsetD32"
      [(CUdeviceptr, "dstDevice"); (TUInt, "ui"); (size_t, "N")])));
    Remark (NoProto (Fun CUresult CUDAAPI "cuMemsetD2D8"
      [(CUdeviceptr, "dstDevice"); (TUInt, "dstPitch"); (TUChar, "uc"); (TUInt, "Width");
       (TUInt, "Height")]));
    Remark (NoProto (Fun CUresult CUDAAPI "cuMemsetD2D16"
      [(CUdeviceptr, "dstDevice"); (TUInt, "dstPitch"); (TUShort, "us"); (TUInt, "Width");
       (TUInt, "Height")]));
    Remark (NoProto (Fun CUresult CUDAAPI "cuMemsetD2D32"
      [(CUdeviceptr, "dstDevice"); (TUInt, "dstPitch"); (TUInt, "ui"); (TUInt, "Width");
       (TUInt, "Height")]));
    Remark (NoProto (Fun CUresult CUDAAPI "cuArrayCreate"
      [(TPtr CUarray, "pHandle"); (TPtr (TConst CUDA_ARRAY_DESCRIPTOR), "pAllocateArray")]));
    Remark (NoProto (Fun CUresult CUDAAPI "cuArrayGetDescriptor"
      [(TPtr CUDA_ARRAY_DESCRIPTOR, "pArrayDescriptor"); (CUarray, "hArray")]));
    Remark (NoProto (Fun CUresult CUDAAPI "cuArray3DCreate"
      [(TPtr CUarray, "pHandle"); (TPtr (TConst CUDA_ARRAY3D_DESCRIPTOR), "pAllocateArray")]));
    Remark (NoProto (Fun CUresult CUDAAPI "cuArray3DGetDescriptor"
      [(TPtr CUDA_ARRAY3D_DESCRIPTOR, "pArrayDescriptor"); (CUarray, "hArray")]));
    Text (Decl (Proto (Fun CUresult CUDAAPI "cuTexRefSetAddress"
      [(TPtr size_t, "ByteOffset"); (CUtexref, "hTexRef"); (CUdeviceptr, "dptr");
       (size_t, "bytes")])));
    Remark (NoProto (Fun CUresult CUDAAPI "cuTexRefSetAddress2D"
      [(CUtexref, "hTexRef"); (TPtr (TConst CUDA_ARRAY_DESCRIPTOR), "desc");
       (CUdeviceptr, "dptr"); (TUInt, "Pitch")]));
    Remark (NoProto (Fun CUresult CUDAAPI "cuTexRefGetAddress"
      [(TPtr CUdeviceptr, "pdptr"); (CUtexref, "hTexRef")]));
    Remark (NoProto (Fun CUresult CUDAAPI "cuGraphicsResourceGetMappedPointer"
      [(TPtr CUdeviceptr, "pDevPtr"); (TPtr TUInt, "pSize");
       (CUgraphicsResource, "resource")])) ].

Definition block_4000 : list item :=
  [ Undef "cuCtxDestroy";
    Undef "cuCtxPopCurrent";
    Undef "cuCtxPushCurrent";
    Undef "cuStreamDestroy";
    Undef "cuEventDestroy";

    Text (Decl (Proto (Fun CUresult CUDAAPI "cuCtxDestroy" [(CUcontext, "ctx")])));
    Text (Decl (Proto (Fun CUresult CUDAAPI "cuCtxPopCurrent" [(TPtr CUcontext, "pctx")])));
    Text (Decl (Proto (Fun CUresult CUDAAPI "cuCtxPushCurrent" [(CUcontext, "ctx")])));
    Text (Decl (Proto (Fun CUresult CUDAAPI "cuStreamDestroy" [(CUstream, "hStream")])));
    Text (Decl (Proto (Fun CUresult CUDAAPI "cuEventDestroy" [(CUevent, "hEvent")]))) ].

Definition block_6050 : list item :=
  [ Undef "cuMemHostRegister";
    Undef "cuLinkCreate";
    Undef "cuLinkAddData";
    Undef "cuLinkAddFile";

    Text (Decl (Proto (Fun CUresult CUDAAPI "cuMemHostRegister"
      [(TPtr TVoid, "p"); (size_t, "bytesize"); (TUInt, "Flags")])));
    Text (Decl (Proto (Fun CUresult CUDAAPI "cuLinkCreate"
      [(TUInt, "numOptions"); (TPtr CUjit_option, "options");
       (TPtr (TPtr TVoid), "optionValues"); (TPtr CUlinkState, "stateOut")])));
    Text (Decl (Proto (Fun CUresult CUDAAPI "cuLinkAddData"
      [(CUlinkState, "state"); (CUjitInputType, "type"); (TPtr TVoid, "data");
       (size_t, "size"); (TPtr (TConst TChar), "name"); (TUInt, "numOptions");
       (TPtr CUjit_option, "options"); (TPtr (TPtr TVoid), "optionValues")])));
    Text (Decl (Proto (Fun CUresult CUDAAPI "cuLinkAddFile"
      [(CUlinkState, "state"); (CUjitInputType, "type"); (TPtr (TConst TChar), "path");
       (TUInt, "numOptions"); (TPtr CUjit_option, "options");
       (TPtr (TPtr TVoid), "optionValues")]))) ].

(** ** The whole file *)

(** Lines 6 to 16: the guard macro and the SDK headers. *)
Definition prelude : list item :=
  [ Define "C_STUBS_H" Empty;
    IfSection (Ifdef "__MINGW32__")
      [ Include "host_defines.h";
        Undef "CUDARTAPI";
        Define "CUDARTAPI" (Tokens "__stdcall") ];
    Include "cuda.h";
    Include "cudaProfiler.h";
    Include "cuda_runtime_api.h" ].

(** Lines 18 to 221: the declarations. *)
Definition declarations : list item :=
  [ IfSection (Ifdef "__cplusplus") [ Text LinkageOpen ];
    Text (Decl (Proto cudaConfigureCallSimple));
    Text (Decl (Proto cuTexRefSetAddress2DSimple));
    Text (Decl (Proto cuMemcpy2DHtoD));
    Text (Decl (Proto cuMemcpy2DHtoDAsync));
    Text (Decl (Proto cuMemcpy2DDtoH));
    Text (Decl (Proto cuMemcpy2DDtoHAsync));
    Text (Decl (Proto cuMemcpy2DDtoD));
    Text (Decl (Proto cuMemcpy2DDtoDAsync));
    Remark (Prose "Need to re-export some symbols as they are now generated by #defines, which c2hs does not like in the function binding hooks.");
    IfSection (IfGe "CUDA_VERSION" 3020) block_3020;
    IfSection (IfGe "CUDA_VERSION" 4000) block_4000;
    IfSection (IfGe "CUDA_VERSION" 6050) block_6050;
    IfSection (Ifdef "__cplusplus") [ Text CloseBrace ] ].

Definition guarded : list item := prelude ++ declarations.

Definition stubs_h : list item :=
  [ Remark (Prose "Extra bits for CUDA bindings");
    IfSection (Ifndef "C_STUBS_H") guarded ].

(** ** The preprocessor *)

(** The macro table maps the names that are macros to their replacement. *)
Abbreviation table := (gmap string body).

Definition defined (m : table) (x : string) : bool :=
  bool_decide (is_Some (m !! x)).

(** Value of a name in an [#if] expression: the integer the macro stands
    for; a name that is no macro counts as 0, and so does, in this model, a
    macro whose replacement is not an integer literal. *)
Definition value (m : table) (x : string) : Z :=
  match m !! x with
  | Some (Int z) => z
  | _ => 0
  end.

Definition holds (c : cond) (m : table) : bool :=
  match c with
  | Ifdef x => defined m x
  | Ifndef x => negb (defined m x)
  | IfGe x n => bool_decide (value m x >= n)
  end.

Definition ext_name (e : extdecl) : string :=
  match e with
  | Proto d | FunDef d => name d
  | ObjDef _ x => x
  end.

(** What the compiler proper receives.  A declaration carries a flag that
    tells whether its name was a macro where it was declared: the
    preprocessor would then have replaced the name. *)
Inductive token :=
  | TInclude (h : string)
  | TOpen
  | TClose
  | TDecl (e : extdecl) (masked : bool).

Global Instance token_eq_dec : EqDecision token.
Proof. solve_decision. Defined.

Definition emit (m : table) (t : text) : token :=
  match t with
  | LinkageOpen => TOpen
  | CloseBrace => TClose
  | Decl e => TDecl e (defined m (ext_name e))
  end.

Section preprocessor.

(** The SDK and system headers are not part of this file: the effect of
    including one on the macro table is a parameter. *)
Variable sdk : string → table → table.

Definition seq_with (f : item → table → table * list token) :=
  fix go (l : list item) (m : table) : table * list token :=
    match l with
    | [] => (m, [])
    | it :: l =>
        let '(m1, o1) := f it m in
        let '(m2, o2) := go l m1 in
        (m2, o1 ++ o2)
    end.

Fixpoint exec (it : item) (m : table) : table * list token :=
  match it with
  | Define x b => (<[x := b]> m, [])
  | Undef x => (delete x m, [])
  | Include h => (sdk h m, [TInclude h])
  | Text t => (m, [emit m t])
  | Remark _ => (m, [])
  | IfSection c group =>
      if holds c m then seq_with exec group m else (m, [])
  end.

Definition run : list item → table → table * list token := seq_with exec.

(** Including the header in a translation unit whose macro table is [m]. *)
Definition include_stubs (m : table) : table * list token := run stubs_h m.

(** The macro table the declarations are read in: the one the SDK headers
    leave. *)
Definition sdk_table (m : table) : table := (run prelude m).1.

End preprocessor.

(** ** Reading the file without running it *)

(** External declarations anywhere in the file, sections included. *)
Fixpoint item_decls (it : item) : list extdecl :=
  match it with
  | Text (Decl e) => [e]
  | IfSection _ group => flat_map item_decls group
  | _ => []
  end.

Definition decls_of (l : list item) : list extdecl := flat_map item_decls l.

Definition proto_of (e : extdecl) : option fundecl :=
  match e with
  | Proto d => Some d
  | _ => None
  end.

(** The prototypes the file can declare. *)
Definition protos (l : list item) : list fundecl := omap proto_of (decls_of l).

(** Conditions of all the sections of the file, outermost first. *)
Fixpoint item_conds (it : item) : list cond :=
  match it with
  | IfSection c group => c :: flat_map item_conds group
  | _ => []
  end.

Definition conds_of (l : list item) : list cond := flat_map item_conds l.

(** The sections that test a version: macro, threshold and group. *)
Fixpoint item_gates (it : item) : list (string * Z * list item) :=
  match it with
  | IfSection c group =>
      match c with
      | IfGe x n => [(x, n, group)]
      | _ => []
      end ++ flat_map item_gates group
  | _ => []
  end.

Definition gates (l : list item) : list (string * Z * list item) :=
  flat_map item_gates l.

(** The prototypes of the version sections, each with its threshold. *)
Definition gated (l : list item) : list (Z * fundecl) :=
  g ← gates l; (λ d, (g.1.2, d)) <$> protos g.2.

(** Within one group: the names it undefines, the prototypes it declares,
    and the prototypes it only has in comments. *)
Definition undefs (g : list item) : list string :=
  omap (λ it, match it with Undef x => Some x | _ => None end) g.

Definition proto_names (g : list item) : list string :=
  omap (λ it, match it with Text (Decl (Proto d)) => Some (name d) | _ => None end) g.

Definition silenced_names (g : list item) : list string :=
  omap (λ it, match it with Remark (NoProto d) => Some (name d) | _ => None end) g.

(** ** What the compiler proper sees *)

Definition token_decl (t : token) : option extdecl :=
  match t with
  | TDecl e _ => Some e
  | _ => None
  end.

(** The external declarations among the tokens, the prototypes among
    those, and the symbols they declare. *)
Definition token_decls (ts : list token) : list extdecl := omap token_decl ts.

Definition declared (ts : list token) : list fundecl :=
  omap proto_of (token_decls ts).

Definition symbols (ts : list token) : list string := name <$> declared ts.

(** Nesting depth of C linkage blocks after the tokens [ts], starting from
    [depth]; a closing brace that closes nothing is a syntax error. *)
Fixpoint depth_after (depth : nat) (ts : list token) : option nat :=
  match ts with
  | [] => Some depth
  | TOpen :: ts => depth_after (S depth) ts
  | TClose :: ts =>
      match depth with
      | O => None
      | S k => depth_after k ts
      end
  | _ :: ts => depth_after depth ts
  end.

(** The declarations that are not inside a C linkage block. *)
Fixpoint outside (depth : nat) (ts : list token) : list extdecl :=
  match ts with
  | [] => []
  | TOpen :: ts => outside (S depth) ts
  | TClose :: ts => outside (pred depth) ts
  | TDecl e _ :: ts =>
      match depth with
      | O => e :: outside depth ts
      | S _ => outside depth ts
      end
  | TInclude _ :: ts => outside depth ts
  end.

(** A group that re-exports symbols: [#undef] lines, comments, and
    prototypes whose name was undefined earlier in the group ([gone] holds
    the names undefined so far). *)
Fixpoint reexports (gone : list string) (g : list item) : bool :=
  match g with
  | [] => true
  | Undef x :: g => reexports (x :: gone) g
  | Remark _ :: g => reexports gone g
  | Text (Decl (Proto d)) :: g => bool_decide (name d ∈ gone) && reexports gone g
  | _ => false
  end.

(** Every [#undef] of a group is followed by an active prototype of the
    same name. *)
Fixpoint redeclares (g : list item) : bool :=
  match g with
  | [] => true
  | Undef x :: g => bool_decide (x ∈ proto_names g) && redeclares g
  | _ :: g => redeclares g
  end.

(** Every [#undef] of a group is followed by a prototype of the same name,
    active or in a comment. *)
Fixpoint mentions_again (g : list item) : bool :=
  match g with
  | [] => true
  | Undef x :: g =>
      bool_decide (x ∈ proto_names g ∨ x ∈ silenced_names g) && mentions_again g
  | _ :: g => mentions_again g
  end.

(** Decidable facts about the file itself are settled by evaluation. *)
Ltac closed :=
  match goal with
  | |- ?P => apply (@bool_decide_unpack P _); vm_compute; exact I
  end.

(** ** The header, run on any macro table *)

(** Tokens of a version section when the version is [v]. *)
Definition gate (v n : Z) (g : list item) : list token :=
  if bool_decide (v >= n) then (λ d, TDecl (Proto d) false) <$> protos g else [].

(** The tokens of the header in terms of what it tests: whether
    [__MINGW32__] and [__cplusplus] are defined, the value [v] of
    [CUDA_VERSION], and which names are macros when the wrappers are
    declared. *)
Definition header_tokens (mingw cxx : bool) (v : Z) (mask : string → bool) : list token :=
  (if mingw then [TInclude "host_defines.h"] else []) ++
  [TInclude "cuda.h"; TInclude "cudaProfiler.h"; TInclude "cuda_runtime_api.h"] ++
  (if cxx then [TOpen] else []) ++
  ((λ d, TDecl (Proto d) (mask (name d))) <$> wrappers) ++
  gate v 3020 block_3020 ++
  gate v 4000 block_4000 ++
  gate v 6050 block_6050 ++
  (if cxx then [TClose] else []).

(** The names the three version sections undefine. *)
Definition reexported : list string :=
  undefs block_3020 ++ undefs block_4000 ++ undefs block_6050.

(** The prototypes a version section lets through when the version is [v],
    and all the prototypes of the header at that version. *)
Definition released (v n : Z) (g : list item) : list fundecl :=
  if bool_decide (v >= n) then protos g else [].

Definition declared_at (v : Z) : list fundecl :=
  wrappers ++
  released v 3020 block_3020 ++
  released v 4000 block_4000 ++
  released v 6050 block_6050.

(** ** A small model of the SDK, to run the header on *)

(** What [cuda.h] of CUDA 6.5 does to the macro table, as far as this header
    can tell: it sets [CUDA_VERSION] and turns entry points into macros for
    their versioned names. *)
Definition cuda_6_5 (h : string) (m : table) : table :=
  if decide (h = "cuda.h") then
    <["CUDA_VERSION" := Int 6050]>
      (<["cuMemAlloc" := Tokens "cuMemAlloc_v2"]>
        (<["cuCtxDestroy" := Tokens "cuCtxDestroy_v2"]>
          (<["cuMemHostRegister" := Tokens "cuMemHostRegister_v2"]> m)))
  else m.

(** The same for CUDA 3.2. *)
Definition cuda_3_2 (h : string) (m : table) : table :=
  if decide (h = "cuda.h") then
    <["CUDA_VERSION" := Int 3020]>
      (<["cuMemAlloc" := Tokens "cuMemAlloc_v2"]> m)
  else m.

(** An SDK whose [cuda.h] makes a macro of [cuMemcpy2DHtoD]. *)
Definition cuda_macro_wrapper (h : string) (m : table) : table :=
  if decide (h = "cuda.h") then
    <["cuMemcpy2DHtoD" := Tokens "cuMemcpy2DHtoD_v2"]> m
  else m.


(** An SDK whose [cuda.h], at version 6050, makes macros of [cuMemAlloc]
    and of [cuMemcpy2D]. *)
Definition cuda_copy2D (h : string) (m : table) : table :=
  if decide (h = "cuda.h") then
    <["CUDA_VERSION" := Int 6050]>
      (<["cuMemAlloc" := Tokens "cuMemAlloc_v2"]>
        (<["cuMemcpy2D" := Tokens "cuMemcpy2D_v2"]> m))
  else m.

Definition cuMemHostRegister : fundecl :=
  Fun CUresult CUDAAPI "cuMemHostRegister"
    [(TPtr TVoid, "p"); (size_t, "bytesize"); (TUInt, "Flags")].

(** A function declaration returns one of the two status types of the SDK. *)
Definition status_result (e : extdecl) : Prop :=
  match e with
  | Proto d | FunDef d => ret d = cudaError_t ∨ ret d = CUresult
  | ObjDef _ _ => True
  end.

Global Instance status_result_dec (e : extdecl) : Decision (status_result e).
Proof. destruct e; simpl; apply _. Defined.

(** ** Asynchronous variants *)

(** [a] is the asynchronous variant of [d]: same name with [Async]
    appended, same return type and calling convention, and the parameters
    of [d] followed by one stream parameter. *)
Definition async_of (d a : fundecl) : Prop :=
  name a = name d +:+ "Async" ∧
  ret a = ret d ∧
  conv a = conv d ∧
  params a = params d ++ [(CUstream, "hStream")].

Global Instance async_of_dec (d a : fundecl) : Decision (async_of d a).
Proof. unfold async_of. apply _. Defined.

(** The name ends in [Async]. *)
Definition is_async (x : string) : bool :=
  let n := String.length x in
  bool_decide (5 ≤ n)%nat && bool_decide (String.substring (n - 5) 5 x = "Async").

(** ** The wrappers *)

Definition proto_named (x : string) (l : list item) : option fundecl :=
  head (filter (λ d, name d = x) (protos l)).

(** Aggregate types of the SDK: the launch dimensions and the copy and
    array descriptors. *)
Definition sdk_structs : list string :=
  [ "dim3"; "CUDA_MEMCPY2D"; "CUDA_MEMCPY3D";
    "CUDA_ARRAY_DESCRIPTOR"; "CUDA_ARRAY3D_DESCRIPTOR" ].

(** A parameter type is flat when it is an arithmetic type, a typedef of
    the SDK that is not an aggregate, or a pointer to untyped memory. *)
Definition flat (t : ctype) : bool :=
  match t with
  | TChar | TUChar | TUShort | TInt | TUInt => true
  | TNamed x => bool_decide (x ∉ sdk_structs)
  | TPtr TVoid | TPtr (TConst TVoid) => true
  | _ => false
  end.

Definition copy2D (dst src : ctype) : list ctype :=
  [ dst; TUInt; TUInt; TUInt; src; TUInt; TUInt; TUInt; TUInt; TUInt ].

(** ** Undefining and re-declaring *)

(** In the group [g], every [#undef] is followed by an active prototype of
    the name it undefines. *)
Definition undefs_redeclared (g : list item) : Prop :=
  ∀ g1 x g2, g = g1 ++ Undef x :: g2 → x ∈ proto_names g2.

(** The same, but the prototype may sit in a comment. *)
Definition undefs_mentioned (g : list item) : Prop :=
  ∀ g1 x g2, g = g1 ++ Undef x :: g2 →
    x ∈ proto_names g2 ∨ x ∈ silenced_names g2.

(** In the group [g], every active prototype is preceded by an [#undef] of
    its name. *)
Definition redeclared_undefined (g : list item) : Prop :=
  ∀ g1 d g2, g = g1 ++ Text (Decl (Proto d)) :: g2 → name d ∈ undefs g1.

(** ** More readings of the file and of the tokens *)

(** The prototypes the file only has in comments, sections included. *)
Fixpoint item_silenced (it : item) : list fundecl :=
  match it with
  | Remark (NoProto d) => [d]
  | IfSection _ group => flat_map item_silenced group
  | _ => []
  end.

Definition silenced (l : list item) : list fundecl := flat_map item_silenced l.

(** The names whose [#undef] the file only has in comments. *)
Fixpoint item_kept (it : item) : list string :=
  match it with
  | Remark (NoUndef x) => [x]
  | IfSection _ group => flat_map item_kept group
  | _ => []
  end.

Definition kept_macros (l : list item) : list string := flat_map item_kept l.

(** The names the version sections undefine when the version is [v]. *)
Definition undefined_at (v : Z) : list string :=
  g ← gates stubs_h; if bool_decide (v >= g.1.2) then undefs g.2 else [].

(** The headers among the tokens, in order. *)
Definition token_include (t : token) : option string :=
  match t with
  | TInclude h => Some h
  | _ => None
  end.

Definition included (ts : list token) : list string := omap token_include ts.

(** The headers the file includes, [host_defines.h] only for MinGW. *)
Definition headers (mingw : bool) : list string :=
  (if mingw then ["host_defines.h"] else []) ++
  ["cuda.h"; "cudaProfiler.h"; "cuda_runtime_api.h"].

(** * Lemmas *)

(** ** Equations of the preprocessor *)

Section run_lemmas.

Variable sdk : string → table → table.

Lemma run_nil (m : table) : run sdk [] m = (m, []).
Proof. reflexivity. Qed.

Lemma run_cons (it : item) (l : list item) (m : table) :
  run sdk (it :: l) m =
  ((run sdk l (exec sdk it m).1).1,
   (exec sdk it m).2 ++ (run sdk l (exec sdk it m).1).2).
Proof.
  unfold run; simpl.
  destruct (exec sdk it m) as [m1 o1]; simpl.
  by destruct (seq_with (exec sdk) l m1).
Qed.

Lemma run_app (l1 l2 : list item) (m : table) :
  run sdk (l1 ++ l2) m =
  ((run sdk l2 (run sdk l1 m).1).1,
   (run sdk l1 m).2 ++ (run sdk l2 (run sdk l1 m).1).2).
Proof.
  revert m; induction l1 as [|it l1 IH]; intros m.
  - simpl. by destruct (run sdk l2 m).
  - rewrite <- app_comm_cons, !run_cons, IH. simpl. by rewrite app_assoc.
Qed.

Lemma exec_section (c : cond) (g : list item) (m : table) :
  exec sdk (IfSection c g) m = if holds c m then run sdk g m else (m, []).
Proof. reflexivity. Qed.

(** A group of [#undef] lines, comments and prototypes removes the names
    it undefines from the table and touches nothing else. *)
Lemma reexports_table (g : list item) (gone : list string) (m : table) (y : string) :
  reexports gone g = true →
  (y ∈ undefs g → (run sdk g m).1 !! y = None) ∧
  (y ∉ undefs g → (run sdk g m).1 !! y = m !! y).
Proof.
  revert gone m; induction g as [|it g IH]; intros gone m Hg.
  - split; [by intros ?%elem_of_nil | done].
  - rewrite run_cons.
    destruct it as [? ? | x | ? | [| | [d | ? | ? ?]] | r | ? ?]; simpl in Hg; try done.
    + destruct (IH _ (delete x m) Hg) as [IH1 IH2].
      change (undefs (Undef x :: g)) with (x :: undefs g).
      split; cbn [exec fst].
      * intros Hy. destruct (decide (y ∈ undefs g)) as [Hin|Hout]; [by apply IH1|].
        apply elem_of_cons in Hy as [->|Hy]; [|done].
        rewrite (IH2 Hout). apply lookup_delete_eq.
      * intros [Hne Hout]%not_elem_of_cons.
        rewrite (IH2 Hout). by apply lookup_delete_ne.
    + apply andb_prop in Hg as [_ Hg]. apply (IH _ m Hg).
    + apply (IH _ m Hg).
Qed.

(** Its prototypes reach the compiler under their own names. *)
Lemma reexports_tokens (g : list item) (gone : list string) (m : table) :
  reexports gone g = true →
  (∀ x, x ∈ gone → m !! x = None) →
  (run sdk g m).2 = (λ d, TDecl (Proto d) false) <$> protos g.
Proof.
  revert gone m; induction g as [|it g IH]; intros gone m Hg Hgone; [done|].
  destruct it as [? ? | x | ? | [| | [d | ? | ? ?]] | r | ? ?]; simpl in Hg; try done;
    rewrite run_cons; simpl.
  - apply (IH _ _ Hg). intros z [->|Hz]%elem_of_cons.
    + apply lookup_delete_eq.
    + destruct (decide (x = z)) as [->|Hne]; [apply lookup_delete_eq|].
      rewrite lookup_delete_ne by done. by apply Hgone.
  - apply andb_prop in Hg as [Hd Hg]. apply bool_decide_eq_true in Hd.
    unfold protos; simpl. f_equal.
    + unfold defined. by rewrite (Hgone _ Hd).
    + by apply (IH gone).
  - by apply (IH gone).
Qed.

End run_lemmas.

(** ** From the tokens back to the text *)

(** The preprocessor invents nothing: whatever the macro table and the SDK
    headers, the declarations it hands on are declarations of the file, in
    the order of the file. *)
Lemma exec_sublist (sdk : string → table → table) (it : item) :
  ∀ m, token_decls (exec sdk it m).2 `sublist_of` item_decls it.
Proof.
  induction it as [x b | x | h | t | r | c group IH] using item_nested_ind;
    intros m; try done.
  - by destruct t.
  - rewrite exec_section. destruct (holds c m); [|apply sublist_nil_l].
    revert m. induction IH as [|it group Hit _ IHgroup]; intros m; [done|].
    rewrite run_cons. cbn [snd item_decls flat_map].
    unfold token_decls. rewrite omap_app.
    apply sublist_app; [apply Hit | apply IHgroup].
Qed.

Lemma run_sublist (sdk : string → table → table) (l : list item) (m : table) :
  token_decls (run sdk l m).2 `sublist_of` decls_of l.
Proof.
  revert m; induction l as [|it l IH]; intros m; [done|].
  rewrite run_cons. cbn [snd]. unfold token_decls, decls_of.
  rewrite omap_app. cbn [flat_map].
  apply sublist_app; [apply exec_sublist | apply IH].
Qed.

Lemma omap_sublist {A B} (f : A → option B) (l k : list A) :
  l `sublist_of` k → omap f l `sublist_of` omap f k.
Proof.
  induction 1 as [|x l k _ IH|x l k _ IH]; simpl; [done| |].
  - destruct (f x); [by constructor|done].
  - destruct (f x); [by constructor|done].
Qed.

Lemma run_declared (sdk : string → table → table) (l : list item) (m : table) :
  declared (run sdk l m).2 `sublist_of` protos l.
Proof. apply omap_sublist, run_sublist. Qed.

(** ** Lookups, tokens and versions *)

Lemma value_ext (m' m : table) (y : string) :
  m' !! y = m !! y → value m' y = value m y.
Proof. unfold value. by intros ->. Qed.

Lemma defined_ext (m' m : table) (y : string) :
  m' !! y = m !! y → defined m' y = defined m y.
Proof. unfold defined. by intros ->. Qed.

Lemma not_elem_of_app_3 {A} (l1 l2 l3 : list A) (x : A) :
  x ∉ l1 ++ l2 ++ l3 → (x ∉ l1) ∧ (x ∉ l2) ∧ (x ∉ l3).
Proof. rewrite !not_elem_of_app. tauto. Qed.

Lemma defined_insert_ne (x y : string) (b : body) (m : table) :
  x ≠ y → defined (<[x:=b]> m) y = defined m y.
Proof. intros. unfold defined. by rewrite lookup_insert_ne. Qed.

Lemma defined_insert_eq (x : string) (b : body) (m : table) :
  defined (<[x:=b]> m) x = true.
Proof. unfold defined. by rewrite lookup_insert_eq. Qed.

Lemma defined_delete_ne (x y : string) (m : table) :
  x ≠ y → defined (delete x m) y = defined m y.
Proof. intros. unfold defined. by rewrite lookup_delete_ne. Qed.

Lemma token_decls_fmap (f : fundecl → bool) (l : list fundecl) :
  token_decls ((λ d, TDecl (Proto d) (f d)) <$> l) = Proto <$> l.
Proof. induction l as [|d l IH]; [done|]. unfold token_decls in *; simpl. by f_equal. Qed.

Lemma token_decls_app (ts1 ts2 : list token) :
  token_decls (ts1 ++ ts2) = token_decls ts1 ++ token_decls ts2.
Proof. apply omap_app. Qed.

Lemma omap_proto_of (l : list fundecl) : omap proto_of (Proto <$> l) = l.
Proof. induction l as [|d l IH]; [done|]. simpl. by f_equal. Qed.

Lemma token_decls_gate (v n : Z) (g : list item) :
  token_decls (gate v n g) = Proto <$> released v n g.
Proof.
  unfold gate, released. case_bool_decide; [|done]. apply token_decls_fmap.
Qed.

Lemma token_decls_header (mingw cxx : bool) (v : Z) (mask : string → bool) :
  token_decls (header_tokens mingw cxx v mask) = Proto <$> declared_at v.
Proof.
  unfold header_tokens, declared_at.
  rewrite !token_decls_app, !token_decls_gate, !fmap_app.
  rewrite (token_decls_fmap (λ d, mask (name d))).
  destruct mingw, cxx; simpl; by rewrite app_nil_r.
Qed.

Lemma declared_header (mingw cxx : bool) (v : Z) (mask : string → bool) :
  declared (header_tokens mingw cxx v mask) = declared_at v.
Proof. unfold declared. by rewrite token_decls_header, omap_proto_of. Qed.

(** The four ranges of versions. *)
Lemma declared_at_cases (v : Z) :
  (v < 3020 ∧ declared_at v = wrappers) ∨
  (3020 <= v < 4000 ∧ declared_at v = wrappers ++ protos block_3020) ∨
  (4000 <= v < 6050 ∧
    declared_at v = wrappers ++ protos block_3020 ++ protos block_4000) ∨
  (6050 <= v ∧
    declared_at v =
    wrappers ++ protos block_3020 ++ protos block_4000 ++ protos block_6050).
Proof.
  unfold declared_at, released.
  repeat case_bool_decide; rewrite ?app_nil_r; first [lia | auto with lia].
Qed.

(** ** The header as a function of what it tests *)

Section header.

Variable sdk : string → table → table.

Lemma exec_linkage (x : string) (t : text) (m : table) :
  exec sdk (IfSection (Ifdef x) [Text t]) m =
  (m, if defined m x then [emit m t] else []).
Proof. rewrite exec_section; simpl. by destruct (defined m x). Qed.

Lemma gate_tokens (x : string) (n : Z) (g : list item) (m : table) :
  reexports [] g = true →
  (exec sdk (IfSection (IfGe x n) g) m).2 = gate (value m x) n g.
Proof.
  intros Hg. rewrite exec_section; unfold gate; simpl.
  case_bool_decide; [|done].
  apply (reexports_tokens sdk g [] m Hg). by intros ? ?%elem_of_nil.
Qed.

Lemma gate_table (c : cond) (g : list item) (m : table) (y : string) :
  reexports [] g = true → y ∉ undefs g →
  (exec sdk (IfSection c g) m).1 !! y = m !! y.
Proof.
  intros Hg Hy. rewrite exec_section. destruct (holds c m); [|done].
  by apply (reexports_table sdk g [] m y Hg).
Qed.

Lemma run_cons_eq (it : item) (l : list item) (m m1 m2 : table) (o1 o2 : list token) :
  exec sdk it m = (m1, o1) → run sdk l m1 = (m2, o2) →
  run sdk (it :: l) m = (m2, o1 ++ o2).
Proof. intros H1 H2. by rewrite run_cons, H1; simpl; rewrite H2. Qed.

Lemma run_declarations (m : table) :
  (run sdk declarations m).2 =
    (if defined m "__cplusplus" then [TOpen] else []) ++
    ((λ d, TDecl (Proto d) (defined m (name d))) <$> wrappers) ++
    gate (value m "CUDA_VERSION") 3020 block_3020 ++
    gate (value m "CUDA_VERSION") 4000 block_4000 ++
    gate (value m "CUDA_VERSION") 6050 block_6050 ++
    (if defined m "__cplusplus" then [TClose] else []) ∧
  ∀ y, y ∉ reexported → (run sdk declarations m).1 !! y = m !! y.
Proof.
  destruct (exec sdk (IfSection (IfGe "CUDA_VERSION" 3020) block_3020) m)
    as [t1 o1] eqn:E1.
  destruct (exec sdk (IfSection (IfGe "CUDA_VERSION" 4000) block_4000) t1)
    as [t2 o2] eqn:E2.
  destruct (exec sdk (IfSection (IfGe "CUDA_VERSION" 6050) block_6050) t2)
    as [t3 o3] eqn:E3.
  assert (∀ y, y ∉ undefs block_3020 → t1 !! y = m !! y) as H1.
  { intros y Hy. change t1 with (t1, o1).1. rewrite <- E1. by apply gate_table. }
  assert (∀ y, y ∉ undefs block_4000 → t2 !! y = t1 !! y) as H2.
  { intros y Hy. change t2 with (t2, o2).1. rewrite <- E2. by apply gate_table. }
  assert (∀ y, y ∉ undefs block_6050 → t3 !! y = t2 !! y) as H3.
  { intros y Hy. change t3 with (t3, o3).1. rewrite <- E3. by apply gate_table. }
  assert (∀ y, y ∉ reexported → t3 !! y = m !! y) as H.
  { intros y (Ha & Hb & Hc)%not_elem_of_app_3. by rewrite H3, H2, H1. }
  eassert (run sdk declarations m = (t3, _)) as ->.
  { unfold declarations.
    eapply run_cons_eq; [apply exec_linkage|].
    do 9 (eapply run_cons_eq; [reflexivity|]).
    eapply run_cons_eq; [apply E1|].
    eapply run_cons_eq; [apply E2|].
    eapply run_cons_eq; [apply E3|].
    eapply run_cons_eq; [apply exec_linkage|apply run_nil]. }
  split; [|done]. cbn [fst snd].
  change o1 with (t1, o1).2. rewrite <- E1.
  change o2 with (t2, o2).2. rewrite <- E2.
  change o3 with (t3, o3).2. rewrite <- E3.
  rewrite !gate_tokens by done.
  rewrite (value_ext t2 t1 "CUDA_VERSION"), (value_ext t1 m "CUDA_VERSION"),
    (defined_ext t3 m "__cplusplus") by (apply H || apply H1 || apply H2; closed).
  by destruct (defined m "__cplusplus").
Qed.

Lemma run_prelude (m : table) :
  (run sdk prelude m).2 =
  (if defined m "__MINGW32__" then [TInclude "host_defines.h"] else []) ++
  [TInclude "cuda.h"; TInclude "cudaProfiler.h"; TInclude "cuda_runtime_api.h"].
Proof.
  unfold prelude. rewrite run_cons; cbn [exec fst snd app].
  rewrite run_cons, exec_section; cbn [holds].
  rewrite defined_insert_ne by done.
  by destruct (defined m "__MINGW32__").
Qed.

(** First inclusion: the guard macro is not defined. *)
Lemma include_first (m : table) :
  defined m "C_STUBS_H" = false →
  (include_stubs sdk m).2 =
    header_tokens (defined m "__MINGW32__")
      (defined (sdk_table sdk m) "__cplusplus")
      (value (sdk_table sdk m) "CUDA_VERSION")
      (defined (sdk_table sdk m)) ∧
  ∀ y, y ∉ reexported → (include_stubs sdk m).1 !! y = sdk_table sdk m !! y.
Proof.
  intros Hm. unfold include_stubs, stubs_h.
  rewrite run_cons; cbn [exec fst snd app].
  rewrite run_cons, exec_section; cbn [holds]. rewrite Hm; cbn [negb].
  rewrite run_nil; cbn [fst snd]. rewrite app_nil_r.
  unfold guarded. rewrite run_app; cbn [fst snd].
  destruct (run_declarations (run sdk prelude m).1) as [Ho Ht].
  split; [|done].
  by rewrite Ho, run_prelude, <- !app_assoc.
Qed.

(** Any later inclusion: the guard macro is defined. *)
Lemma include_again (m : table) :
  defined m "C_STUBS_H" = true → include_stubs sdk m = (m, []).
Proof.
  intros Hm. unfold include_stubs, stubs_h.
  rewrite run_cons; cbn [exec fst snd app].
  rewrite run_cons, exec_section; cbn [holds]. by rewrite Hm.
Qed.

(** The version and the language the declarations are read under can be
    taken from the table the header leaves: it only undefines the names
    it re-exports. *)
Lemma include_tokens (m : table) :
  defined m "C_STUBS_H" = false →
  ∃ mingw mask,
    (include_stubs sdk m).2 =
    header_tokens mingw
      (defined (include_stubs sdk m).1 "__cplusplus")
      (value (include_stubs sdk m).1 "CUDA_VERSION")
      mask.
Proof.
  intros Hm. destruct (include_first m Hm) as [Ho Ht].
  exists (defined m "__MINGW32__"), (defined (sdk_table sdk m)).
  rewrite Ho. f_equal.
  - symmetry. apply defined_ext, Ht. closed.
  - symmetry. apply value_ext, Ht. closed.
Qed.

Lemma include_declared (m : table) :
  defined m "C_STUBS_H" = false →
  declared (include_stubs sdk m).2 =
  declared_at (value (include_stubs sdk m).1 "CUDA_VERSION").
Proof.
  intros Hm. destruct (include_tokens m Hm) as (mingw & mask & ->).
  apply declared_header.
Qed.

End header.

(** ** Facts about the text of the header *)

Lemma gates_stubs_h :
  gates stubs_h =
  [ ("CUDA_VERSION", 3020, block_3020);
    ("CUDA_VERSION", 4000, block_4000);
    ("CUDA_VERSION", 6050, block_6050) ].
Proof. reflexivity. Qed.

Lemma gated_stubs_h :
  gated stubs_h =
  (pair 3020 <$> protos block_3020) ++
  (pair 4000 <$> protos block_4000) ++
  (pair 6050 <$> protos block_6050).
Proof. reflexivity. Qed.

Lemma gated_cases (n : Z) (d : fundecl) :
  (n, d) ∈ gated stubs_h →
  (n = 3020 ∧ d ∈ protos block_3020) ∨
  (n = 4000 ∧ d ∈ protos block_4000) ∨
  (n = 6050 ∧ d ∈ protos block_6050).
Proof.
  rewrite gated_stubs_h, !elem_of_app, !list_elem_of_fmap.
  intros [(? & [= -> ->] & ?)|[(? & [= -> ->] & ?)|(? & [= -> ->] & ?)]]; auto.
Qed.

(** No prototype is written twice. *)
Lemma protos_apart :
  Forall (λ d, d ∉ wrappers) (protos block_3020) ∧
  Forall (λ d, d ∉ wrappers ++ protos block_3020) (protos block_4000) ∧
  Forall (λ d, d ∉ wrappers ++ protos block_3020 ++ protos block_4000)
    (protos block_6050).
Proof. split; [|split]; closed. Qed.

Lemma declared_at_gated (v n : Z) (d : fundecl) :
  (n, d) ∈ gated stubs_h → d ∈ declared_at v ↔ v >= n.
Proof.
  intros Hg%gated_cases.
  destruct protos_apart as (A1 & A2 & A3).
  rewrite Forall_forall in A1, A2, A3.
  destruct Hg as [[-> Hd]|[[-> Hd]|[-> Hd]]];
    [ specialize (A1 _ Hd); clear A2 A3
    | specialize (A2 _ Hd); clear A1 A3; rewrite elem_of_app in A2
    | specialize (A3 _ Hd); clear A1 A2; rewrite !elem_of_app in A3 ];
    destruct (declared_at_cases v) as [[Hv ->]|[[Hv ->]|[[Hv ->]|[Hv ->]]]];
    rewrite ?elem_of_app; split; (lia || tauto).
Qed.

Lemma declared_at_mono (v w : Z) : v <= w → declared_at v ⊆ declared_at w.
Proof.
  intros Hvw d.
  destruct (declared_at_cases v) as [[Hv ->]|[[Hv ->]|[[Hv ->]|[Hv ->]]]];
    destruct (declared_at_cases w) as [[Hw ->]|[[Hw ->]|[[Hw ->]|[Hw ->]]]];
    rewrite ?elem_of_app; (lia || tauto).
Qed.

Lemma wrappers_declared_at (v : Z) : wrappers ⊆ declared_at v.
Proof. intros d Hd. unfold declared_at. apply elem_of_app. by left. Qed.

(** A masked declaration can only be one of the wrappers. *)
Lemma header_masked (mingw cxx : bool) (v : Z) (mask : string → bool) (d : fundecl) :
  TDecl (Proto d) true ∈ header_tokens mingw cxx v mask → d ∈ wrappers.
Proof.
  unfold header_tokens, gate. rewrite !elem_of_app, !list_elem_of_fmap.
  intros [H|[H|[H|[H|[H|[H|[H|H]]]]]]].
  - destruct mingw; [apply list_elem_of_singleton in H|apply elem_of_nil in H]; done.
  - by repeat (apply elem_of_cons in H as [?|H]; [done|]); apply elem_of_nil in H.
  - destruct cxx; [apply list_elem_of_singleton in H|apply elem_of_nil in H]; done.
  - by destruct H as (d' & [= -> _] & ?).
  - case_bool_decide; [|by apply elem_of_nil in H].
    apply list_elem_of_fmap in H. by destruct H as (? & ? & ?).
  - case_bool_decide; [|by apply elem_of_nil in H].
    apply list_elem_of_fmap in H. by destruct H as (? & ? & ?).
  - case_bool_decide; [|by apply elem_of_nil in H].
    apply list_elem_of_fmap in H. by destruct H as (? & ? & ?).
  - destruct cxx; [apply list_elem_of_singleton in H|apply elem_of_nil in H]; done.
Qed.

Lemma gated_not_wrapper (n : Z) (d : fundecl) :
  (n, d) ∈ gated stubs_h → d ∉ wrappers.
Proof.
  destruct protos_apart as (A1 & A2 & A3).
  rewrite Forall_forall in A1, A2, A3.
  intros [[_ Hd]|[[_ Hd]|[_ Hd]]]%gated_cases Hw;
    [ apply (A1 _ Hd) | apply (A2 _ Hd) | apply (A3 _ Hd) ];
    rewrite ?elem_of_app; tauto.
Qed.

(** ** The header on the model SDK *)

(** With CUDA 6.5 all 35 prototypes are declared, with CUDA 3.2 the wrappers
    and the 18 of the first section, and without a version the wrappers
    alone. *)
Example symbols_by_version :
  length (symbols (include_stubs cuda_6_5 ∅).2) = 35%nat ∧
  length (symbols (include_stubs cuda_3_2 ∅).2) = 26%nat ∧
  symbols (include_stubs (λ _ m, m) ∅).2 = name <$> wrappers.
Proof. by vm_compute. Qed.

(** [cuda.h] makes [cuMemAlloc] a macro: declared as it is, the prototype
    would be masked; after the [#undef] of the header it is not. *)
Example cuMemAlloc_unmasked :
  let cuMemAlloc :=
    Fun CUresult CUDAAPI "cuMemAlloc" [(TPtr CUdeviceptr, "dptr"); (size_t, "bytesize")] in
  (exec cuda_6_5 (Text (Decl (Proto cuMemAlloc))) (cuda_6_5 "cuda.h" ∅)).2 =
    [TDecl (Proto cuMemAlloc) true] ∧
  TDecl (Proto cuMemAlloc) false ∈ (include_stubs cuda_6_5 ∅).2.
Proof. split; [by vm_compute|closed]. Qed.

(** Read as C++, the tokens start with the three SDK headers and the
    opening of the linkage block and end with its closing brace. *)
Example tokens_cxx :
  take 4 (include_stubs cuda_3_2 {["__cplusplus" := Int 201103]}).2 =
    [TInclude "cuda.h"; TInclude "cudaProfiler.h"; TInclude "cuda_runtime_api.h"; TOpen] ∧
  last (include_stubs cuda_3_2 {["__cplusplus" := Int 201103]}).2 = Some TClose ∧
  length (include_stubs cuda_3_2 {["__cplusplus" := Int 201103]}).2 = 31%nat.
Proof. by vm_compute. Qed.

(** * The properties *)

(** C2.  The sections of the file that test a version test [CUDA_VERSION]
    against 3020, 4000 and 6050 and nothing else, and on a first inclusion a
    prototype of such a section is declared exactly when [CUDA_VERSION] is
    at least the threshold of its section. *)
Theorem version_gating :
  conds_of stubs_h =
    [ Ifndef "C_STUBS_H"; Ifdef "__MINGW32__"; Ifdef "__cplusplus";
      IfGe "CUDA_VERSION" 3020; IfGe "CUDA_VERSION" 4000;
      IfGe "CUDA_VERSION" 6050; Ifdef "__cplusplus" ] ∧
  (λ g, g.1) <$> gates stubs_h =
    [("CUDA_VERSION", 3020); ("CUDA_VERSION", 4000); ("CUDA_VERSION", 6050)] ∧
  ∀ (sdk : string → table → table) (m : table) (n : Z) (d : fundecl),
    defined m "C_STUBS_H" = false →
    (n, d) ∈ gated stubs_h →
    d ∈ declared (include_stubs sdk m).2 ↔
    value (include_stubs sdk m).1 "CUDA_VERSION" >= n.
Proof.
  split; [reflexivity|]. split; [reflexivity|].
  intros sdk m n d Hm Hd.
  rewrite (include_declared sdk m Hm). by apply declared_at_gated.
Qed.

(** C2 on CUDA 6.5: [cuMemHostRegister], of the section for 6050, is declared. *)
Lemma version_gating_witness :
  defined (∅ : table) "C_STUBS_H" = false ∧
  (6050, cuMemHostRegister) ∈ gated stubs_h ∧
  (cuMemHostRegister ∈ declared (include_stubs cuda_6_5 ∅).2 ↔
   value (include_stubs cuda_6_5 ∅).1 "CUDA_VERSION" >= 6050).
Proof.
  split; [reflexivity|]. split; [closed|].
  apply (proj2 (proj2 version_gating) cuda_6_5 ∅ 6050 cuMemHostRegister);
    [reflexivity | closed].
Defined.

(** C5.  Every function the file declares, in whatever section, has return
    type [cudaError_t] or [CUresult]; so has every function that reaches
    the compiler, whatever the SDK headers and the macro table are. *)
Theorem status_results :
  Forall status_result (decls_of stubs_h) ∧
  ∀ (sdk : string → table → table) (m : table),
    Forall status_result (token_decls (include_stubs sdk m).2).
Proof.
  assert (Forall status_result (decls_of stubs_h)) as Hall by closed.
  split; [done|]. intros sdk m.
  rewrite Forall_forall in *. intros e He. apply Hall.
  eapply elem_of_sublist; [done|]. apply run_sublist.
Qed.

(** C6.  Whatever the SDK headers and the macro table are, so at every
    version, no symbol is declared twice, and no prototype of a version
    section is declared while its name is a macro. *)
Theorem no_redefinition (sdk : string → table → table) (m : table) :
  NoDup (symbols (include_stubs sdk m).2) ∧
  Forall (λ g, TDecl (Proto g.2) true ∉ (include_stubs sdk m).2) (gated stubs_h).
Proof.
  split.
  - apply (sublist_NoDup _ (name <$> protos stubs_h)); [closed|].
    apply fmap_sublist, run_declared.
  - apply Forall_forall. intros [n d] Hd Hin; simpl in Hin.
    destruct (defined m "C_STUBS_H") eqn:Hm.
    + rewrite (include_again sdk m Hm) in Hin. by apply elem_of_nil in Hin.
    + destruct (include_tokens sdk m Hm) as (mingw & mask & E).
      rewrite E in Hin. apply header_masked in Hin.
      by apply (gated_not_wrapper n d Hd).
Qed.

(** C9.  The version sections are not nested, so each is a lower bound of
    its own; the declarations of a first inclusion only grow with
    [CUDA_VERSION]; and the eight wrappers, which are in no version section,
    are among them at every version. *)
Theorem declared_monotone :
  Forall (λ g, gates g.2 = []) (gates stubs_h) ∧
  length wrappers = 8%nat ∧
  Forall (λ d, d ∉ (gated stubs_h).*2) wrappers ∧
  (∀ (sdk : string → table → table) (m : table),
    defined m "C_STUBS_H" = false → wrappers ⊆ declared (include_stubs sdk m).2) ∧
  ∀ (sdk1 sdk2 : string → table → table) (m1 m2 : table),
    defined m1 "C_STUBS_H" = false →
    defined m2 "C_STUBS_H" = false →
    value (include_stubs sdk1 m1).1 "CUDA_VERSION" <=
    value (include_stubs sdk2 m2).1 "CUDA_VERSION" →
    declared (include_stubs sdk1 m1).2 ⊆ declared (include_stubs sdk2 m2).2.
Proof.
  split; [by repeat constructor|]. split; [reflexivity|]. split; [closed|]. split.
  - intros sdk m Hm. rewrite (include_declared sdk m Hm).
    apply wrappers_declared_at.
  - intros sdk1 sdk2 m1 m2 H1 H2 Hle.
    rewrite (include_declared sdk1 m1 H1), (include_declared sdk2 m2 H2).
    by apply declared_at_mono.
Qed.

(** C9 between CUDA 3.2 and CUDA 6.5. *)
Lemma declared_monotone_witness :
  defined (∅ : table) "C_STUBS_H" = false ∧
  value (include_stubs cuda_3_2 ∅).1 "CUDA_VERSION" <=
  value (include_stubs cuda_6_5 ∅).1 "CUDA_VERSION" ∧
  wrappers ⊆ declared (include_stubs cuda_3_2 ∅).2 ∧
  declared (include_stubs cuda_3_2 ∅).2 ⊆ declared (include_stubs cuda_6_5 ∅).2.
Proof.
  split; [reflexivity|]. split; [by vm_compute|]. split.
  - apply (proj1 (proj2 (proj2 (proj2 declared_monotone))) cuda_3_2 ∅). reflexivity.
  - apply (proj2 (proj2 (proj2 (proj2 declared_monotone))) cuda_3_2 cuda_6_5 ∅ ∅);
      [reflexivity | reflexivity | by vm_compute].
Defined.

(** ** Linkage blocks *)

(** Declarations do not change the nesting of linkage blocks, and inside a
    block none of them is outside. *)
Lemma depth_after_decls (k : nat) (l : list fundecl) (f : fundecl → bool) (ts : list token) :
  depth_after k (((λ d, TDecl (Proto d) (f d)) <$> l) ++ ts) = depth_after k ts.
Proof. induction l as [|d l IH]; [done|]. by simpl. Qed.

Lemma outside_decls (k : nat) (l : list fundecl) (f : fundecl → bool) (ts : list token) :
  outside (S k) (((λ d, TDecl (Proto d) (f d)) <$> l) ++ ts) = outside (S k) ts.
Proof. induction l as [|d l IH]; [done|]. by simpl. Qed.

Lemma depth_after_gate (k : nat) (v n : Z) (g : list item) (ts : list token) :
  depth_after k (gate v n g ++ ts) = depth_after k ts.
Proof.
  unfold gate. case_bool_decide; [|done].
  apply (depth_after_decls k (protos g) (λ _, false)).
Qed.

Lemma outside_gate (k : nat) (v n : Z) (g : list item) (ts : list token) :
  outside (S k) (gate v n g ++ ts) = outside (S k) ts.
Proof.
  unfold gate. case_bool_decide; [|done].
  apply (outside_decls k (protos g) (λ _, false)).
Qed.

Lemma header_linkage (mingw : bool) (v : Z) (mask : string → bool) :
  outside 0 (header_tokens mingw true v mask) = [] ∧
  depth_after 0 (header_tokens mingw true v mask) = Some 0%nat.
Proof.
  unfold header_tokens.
  assert (∀ ts, outside 0
    ((if mingw then [TInclude "host_defines.h"] else []) ++
     [TInclude "cuda.h"; TInclude "cudaProfiler.h"; TInclude "cuda_runtime_api.h"] ++
     [TOpen] ++ ts) = outside 1 ts) as -> by (by destruct mingw).
  assert (∀ ts, depth_after 0
    ((if mingw then [TInclude "host_defines.h"] else []) ++
     [TInclude "cuda.h"; TInclude "cudaProfiler.h"; TInclude "cuda_runtime_api.h"] ++
     [TOpen] ++ ts) = depth_after 1 ts) as -> by (by destruct mingw).
  rewrite (outside_decls 0 wrappers (λ d, mask (name d))), !outside_gate.
  by rewrite (depth_after_decls 1 wrappers (λ d, mask (name d))), !depth_after_gate.
Qed.

(** C7.  Every external declaration of the file is a prototype: there is no
    function body and no object.  When the header is read as C++, every
    declaration it hands to the compiler is inside the linkage block it
    opens, and the block is closed at the end. *)
Theorem prototypes_only :
  Forall (λ e, is_Some (proto_of e)) (decls_of stubs_h) ∧
  ∀ (sdk : string → table → table) (m : table),
    defined (include_stubs sdk m).1 "__cplusplus" = true →
    outside 0 (include_stubs sdk m).2 = [] ∧
    depth_after 0 (include_stubs sdk m).2 = Some 0%nat.
Proof.
  split; [closed|]. intros sdk m Hcxx.
  destruct (defined m "C_STUBS_H") eqn:Hm.
  - by rewrite (include_again sdk m Hm).
  - destruct (include_tokens sdk m Hm) as (mingw & mask & E).
    rewrite Hcxx in E. rewrite E. apply header_linkage.
Qed.

(** C7 on CUDA 6.5 read as C++. *)
Lemma prototypes_only_witness :
  defined (include_stubs cuda_6_5 {["__cplusplus" := Int 201103]}).1 "__cplusplus" = true ∧
  outside 0 (include_stubs cuda_6_5 {["__cplusplus" := Int 201103]}).2 = [] ∧
  depth_after 0 (include_stubs cuda_6_5 {["__cplusplus" := Int 201103]}).2 = Some 0%nat.
Proof.
  split; [by vm_compute|].
  apply (proj2 prototypes_only cuda_6_5 {["__cplusplus" := Int 201103]}).
  by vm_compute.
Defined.

Section guard.

Variable sdk : string → table → table.

(** No SDK header undefines the guard macro of this header. *)
Hypothesis sdk_keeps_guard :
  ∀ h t, defined t "C_STUBS_H" = true → defined (sdk h t) "C_STUBS_H" = true.

Lemma sdk_table_guard (m : table) : defined (sdk_table sdk m) "C_STUBS_H" = true.
Proof.
  unfold sdk_table, prelude.
  rewrite run_cons; cbn [exec fst snd].
  assert (defined (<["C_STUBS_H":=Empty]> m) "C_STUBS_H" = true) as H0.
  { apply defined_insert_eq. }
  revert H0. generalize (<["C_STUBS_H":=Empty]> m). intros t0 H0.
  rewrite run_cons, exec_section.
  assert (defined (if holds (Ifdef "__MINGW32__") t0
                   then run sdk [Include "host_defines.h"; Undef "CUDARTAPI";
                                 Define "CUDARTAPI" (Tokens "__stdcall")] t0
                   else (t0, [])).1 "C_STUBS_H" = true) as H1.
  { destruct (holds _ t0); [|done].
    rewrite !run_cons; cbn [exec fst snd run seq_with].
    rewrite defined_insert_ne, defined_delete_ne by done.
    by apply sdk_keeps_guard. }
  revert H1. generalize (if holds (Ifdef "__MINGW32__") t0
                   then run sdk [Include "host_defines.h"; Undef "CUDARTAPI";
                                 Define "CUDARTAPI" (Tokens "__stdcall")] t0
                   else (t0, [])).1. intros t1 H1.
  rewrite !run_cons; cbn [exec fst snd run seq_with].
  by do 3 apply sdk_keeps_guard.
Qed.

(** Once the header has been included, its guard macro is defined. *)
Lemma include_defines_guard (m : table) :
  defined (include_stubs sdk m).1 "C_STUBS_H" = true.
Proof.
  destruct (defined m "C_STUBS_H") eqn:Hm.
  - by rewrite (include_again sdk m Hm).
  - destruct (include_first sdk m Hm) as [_ Ht].
    rewrite (defined_ext _ (sdk_table sdk m)) by (apply Ht; closed).
    apply sdk_table_guard.
Qed.

End guard.

(** C8.  The whole file but its opening comment is one [#ifndef C_STUBS_H]
    section that starts by defining [C_STUBS_H]; while that macro is
    defined, an inclusion yields no token and leaves the macro table as it
    is.  So, provided no SDK header undefines that macro, including the
    header again after an inclusion adds nothing, and a translation unit
    that includes the header twice in a row is read as one that includes it
    once. *)
Theorem include_idempotent :
  (∃ c g, stubs_h =
     [Remark (Prose c);
      IfSection (Ifndef "C_STUBS_H") (Define "C_STUBS_H" Empty :: g)]) ∧
  (∀ (sdk : string → table → table) (m : table),
    defined m "C_STUBS_H" = true → include_stubs sdk m = (m, [])) ∧
  ∀ (sdk : string → table → table),
    (∀ h t, defined t "C_STUBS_H" = true → defined (sdk h t) "C_STUBS_H" = true) →
    ∀ m : table,
      include_stubs sdk (include_stubs sdk m).1 = ((include_stubs sdk m).1, []) ∧
      run sdk (stubs_h ++ stubs_h) m = run sdk stubs_h m.
Proof.
  split; [by eexists _, _|]. split; [apply include_again|]. intros sdk Hsdk m.
  pose proof (include_again sdk _ (include_defines_guard sdk Hsdk m)) as H.
  split; [done|].
  rewrite run_app.
  fold (include_stubs sdk m). fold (include_stubs sdk (include_stubs sdk m).1).
  rewrite H; simpl. rewrite app_nil_r. by destruct (include_stubs sdk m).
Qed.

Lemma cuda_6_5_keeps_guard (h : string) (t : table) :
  defined t "C_STUBS_H" = true → defined (cuda_6_5 h t) "C_STUBS_H" = true.
Proof.
  intros Ht. unfold cuda_6_5. case_decide; [|done].
  by rewrite !defined_insert_ne.
Qed.

(** C8 on CUDA 6.5, whose headers leave [C_STUBS_H] alone. *)
Lemma include_idempotent_witness :
  defined ({["C_STUBS_H" := Empty]} : table) "C_STUBS_H" = true ∧
  include_stubs cuda_6_5 {["C_STUBS_H" := Empty]} = ({["C_STUBS_H" := Empty]}, []) ∧
  include_stubs cuda_6_5 (include_stubs cuda_6_5 ∅).1 =
    ((include_stubs cuda_6_5 ∅).1, []) ∧
  run cuda_6_5 (stubs_h ++ stubs_h) ∅ = run cuda_6_5 stubs_h ∅.
Proof.
  split; [reflexivity|]. split.
  - apply (proj1 (proj2 include_idempotent) cuda_6_5). reflexivity.
  - apply (proj2 (proj2 include_idempotent) cuda_6_5 cuda_6_5_keeps_guard ∅).
Defined.

(** C10.  Each of the six copy functions and its [Async] variant are
    declared in the file with the same return type, the same calling
    convention and the same parameters, the variant taking one more, last,
    parameter of type [CUstream]; and the file declares no other function
    whose name ends in [Async]. *)
Theorem async_pairs :
  Forall (λ x, Exists (λ d, name d = x ∧ Exists (async_of d) (protos stubs_h))
                 (protos stubs_h))
    [ "cuMemcpy2DHtoD"; "cuMemcpy2DDtoH"; "cuMemcpy2DDtoD";
      "cuMemcpyHtoD"; "cuMemcpyDtoH"; "cuMemcpyDtoD" ] ∧
  Forall (λ a, is_async (name a) = true → Exists (λ d, async_of d a) (protos stubs_h))
    (protos stubs_h) ∧
  name <$> filter (λ a, is_async (name a) = true) (protos stubs_h) =
    [ "cuMemcpy2DHtoDAsync"; "cuMemcpy2DDtoHAsync"; "cuMemcpy2DDtoDAsync";
      "cuMemcpyHtoDAsync"; "cuMemcpyDtoHAsync"; "cuMemcpyDtoDAsync" ].
Proof. split; [closed|]. split; [closed|]. by vm_compute. Qed.

(** C4.  The eight wrappers are declared with flat parameter lists:
    [cudaConfigureCallSimple] takes five [int] dimensions, a [size_t] and a
    stream; [cuTexRefSetAddress2DSimple] and the six two-dimensional copies
    take the fields of the descriptor one by one; no parameter is an SDK
    aggregate or a pointer to one. *)
Theorem wrappers_flat :
  param_types <$> proto_named "cudaConfigureCallSimple" stubs_h =
    Some [TInt; TInt; TInt; TInt; TInt; size_t; cudaStream_t] ∧
  param_names <$> proto_named "cudaConfigureCallSimple" stubs_h =
    Some ["gridX"; "gridY"; "blockX"; "blockY"; "blockZ"; "sharedMem"; "stream"] ∧
  param_types <$> proto_named "cuTexRefSetAddress2DSimple" stubs_h =
    Some [CUtexref; CUarray_format; TUInt; CUdeviceptr; size_t; size_t; size_t] ∧
  param_types <$> proto_named "cuMemcpy2DHtoD" stubs_h =
    Some (copy2D CUdeviceptr (TPtr TVoid)) ∧
  param_types <$> proto_named "cuMemcpy2DHtoDAsync" stubs_h =
    Some (copy2D CUdeviceptr (TPtr TVoid) ++ [CUstream]) ∧
  param_types <$> proto_named "cuMemcpy2DDtoH" stubs_h =
    Some (copy2D (TPtr TVoid) CUdeviceptr) ∧
  param_types <$> proto_named "cuMemcpy2DDtoHAsync" stubs_h =
    Some (copy2D (TPtr TVoid) CUdeviceptr ++ [CUstream]) ∧
  param_types <$> proto_named "cuMemcpy2DDtoD" stubs_h =
    Some (copy2D CUdeviceptr CUdeviceptr) ∧
  param_types <$> proto_named "cuMemcpy2DDtoDAsync" stubs_h =
    Some (copy2D CUdeviceptr CUdeviceptr ++ [CUstream]) ∧
  Forall (λ d, proto_named (name d) stubs_h = Some d ∧
               Forall (λ t, flat t = true) (param_types d)) wrappers.
Proof. repeat (split; [reflexivity|]). closed. Qed.

Lemma redeclares_sound (g : list item) :
  redeclares g = true → undefs_redeclared g.
Proof.
  induction g as [|it g IH]; intros H g1 x g2 E.
  - by destruct g1.
  - destruct g1 as [|it' g1]; simpl in E; injection E as -> ->; simpl in H.
    + apply andb_prop in H as [H _]. by apply bool_decide_eq_true in H.
    + eapply IH; [|done].
      destruct it'; simpl in H; try done. by apply andb_prop in H as [_ H].
Qed.

Lemma mentions_again_sound (g : list item) :
  mentions_again g = true → undefs_mentioned g.
Proof.
  induction g as [|it g IH]; intros H g1 x g2 E.
  - by destruct g1.
  - destruct g1 as [|it' g1]; simpl in E; injection E as -> ->; simpl in H.
    + apply andb_prop in H as [H _]. by apply bool_decide_eq_true in H.
    + eapply IH; [|done].
      destruct it'; simpl in H; try done. by apply andb_prop in H as [_ H].
Qed.

Lemma reexports_sound (g : list item) (gone : list string) :
  reexports gone g = true →
  ∀ g1 d g2, g = g1 ++ Text (Decl (Proto d)) :: g2 → name d ∈ undefs g1 ++ gone.
Proof.
  revert gone; induction g as [|it g IH]; intros gone H g1 d g2 E.
  - by destruct g1.
  - destruct g1 as [|it' g1]; simpl in E; injection E as -> ->; simpl in H.
    + apply andb_prop in H as [H _]. by apply bool_decide_eq_true in H.
    + destruct it' as [? ? | x | ? | [| | [d' | ? | ? ?]] | r | ? ?];
        simpl in H; try done.
      * specialize (IH _ H _ _ _ eq_refl).
        change (undefs (Undef x :: g1)) with (x :: undefs g1).
        rewrite elem_of_app, elem_of_cons in IH.
        rewrite elem_of_app, elem_of_cons. tauto.
      * apply andb_prop in H as [_ H]. apply (IH _ H _ _ _ eq_refl).
      * apply (IH _ H _ _ _ eq_refl).
Qed.

Lemma reexports_redeclared_undefined (g : list item) :
  reexports [] g = true → redeclared_undefined g.
Proof.
  intros H g1 d g2 E. pose proof (reexports_sound g [] H g1 d g2 E) as Hin.
  by rewrite app_nil_r in Hin.
Qed.

(** C3 as stated fails on the section for 3020: [cuMemAllocPitch] is
    undefined there (line 111) and its prototype is in a comment (line 154). *)
Lemma undef_without_prototype :
  ¬ ∀ g, g ∈ gates stubs_h →
      undefs_redeclared g.2 ∧ redeclared_undefined g.2.
Proof.
  intros H.
  destruct (H ("CUDA_VERSION", 3020, block_3020)) as [H1 _];
    [rewrite gates_stubs_h; by left|].
  specialize (H1 (take 5 block_3020) "cuMemAllocPitch" (drop 6 block_3020) eq_refl).
  revert H1. closed.
Qed.

(** C3, amended.  In each version section, every prototype is preceded by
    an [#undef] of its name, and every [#undef] is followed by a prototype
    of the name it undefines; that prototype is active in the sections for
    4000 and 6050, and active or in a comment in the section for 3020,
    where 18 of the 39 undefined names are declared again and the 21 others
    have their prototype in a comment. *)
Theorem reexport_sections :
  Forall (λ g, redeclared_undefined g.2 ∧ undefs_mentioned g.2) (gates stubs_h) ∧
  undefs_redeclared block_4000 ∧
  undefs_redeclared block_6050 ∧
  length (undefs block_3020) = 39%nat ∧
  length (proto_names block_3020) = 18%nat ∧
  filter (λ x, x ∉ proto_names block_3020) (undefs block_3020) =
    [ "cuMemAllocPitch"; "cuMemAllocHost"; "cuMemcpyDtoA"; "cuMemcpyAtoD";
      "cuMemcpyHtoA"; "cuMemcpyAtoH"; "cuMemcpyAtoA"; "cuMemcpyHtoAAsync";
      "cuMemcpyAtoHAsync"; "cuMemcpy2DUnaligned"; "cuMemcpy3D";
      "cuMemcpy3DAsync"; "cuMemsetD2D8"; "cuMemsetD2D16"; "cuMemsetD2D32";
      "cuArrayCreate"; "cuArrayGetDescriptor"; "cuArray3DCreate";
      "cuArray3DGetDescriptor"; "cuTexRefGetAddress";
      "cuGraphicsResourceGetMappedPointer" ].
Proof.
  split.
  { rewrite gates_stubs_h.
    repeat (constructor;
      [split; [by apply reexports_redeclared_undefined
              |by apply mentions_again_sound]|]).
    constructor. }
  split; [by apply redeclares_sound|].
  split; [by apply redeclares_sound|].
  split; [reflexivity|]. split; [reflexivity|]. by vm_compute.
Qed.


(** * Further properties of the header *)

(** ** The macro table after an inclusion *)

Section tables.

Variable sdk : string → table → table.

Lemma gate_lookup (x : string) (n : Z) (g : list item) (m : table) (y : string) :
  reexports [] g = true →
  (exec sdk (IfSection (IfGe x n) g) m).1 !! y =
  if bool_decide (y ∈ (if bool_decide (value m x >= n) then undefs g else []))
  then None else m !! y.
Proof.
  intros Hg. rewrite exec_section; cbn [holds].
  destruct (reexports_table sdk g [] m y Hg) as [Hin Hout].
  case_bool_decide as Hv; cbn [fst].
  - case_bool_decide; [by apply Hin | by apply Hout].
  - rewrite bool_decide_eq_false_2; [done | apply not_elem_of_nil].
Qed.

Lemma declarations_table (m : table) (y : string) :
  (run sdk declarations m).1 !! y =
  if bool_decide (y ∈ undefined_at (value m "CUDA_VERSION")) then None else m !! y.
Proof.
  destruct (exec sdk (IfSection (IfGe "CUDA_VERSION" 3020) block_3020) m)
    as [t1 o1] eqn:E1.
  destruct (exec sdk (IfSection (IfGe "CUDA_VERSION" 4000) block_4000) t1)
    as [t2 o2] eqn:E2.
  destruct (exec sdk (IfSection (IfGe "CUDA_VERSION" 6050) block_6050) t2)
    as [t3 o3] eqn:E3.
  eassert (run sdk declarations m = (t3, _)) as ->.
  { unfold declarations.
    eapply run_cons_eq; [apply exec_linkage|].
    do 9 (eapply run_cons_eq; [reflexivity|]).
    eapply run_cons_eq; [apply E1|].
    eapply run_cons_eq; [apply E2|].
    eapply run_cons_eq; [apply E3|].
    eapply run_cons_eq; [apply exec_linkage|apply run_nil]. }
  cbn [fst].
  assert (∀ z, t1 !! z = (t1, o1).1 !! z) as F1 by done.
  assert (∀ z, t2 !! z = (t2, o2).1 !! z) as F2 by done.
  assert (∀ z, t3 !! z = (t3, o3).1 !! z) as F3 by done.
  rewrite <- E1 in F1. rewrite <- E2 in F2. rewrite <- E3 in F3.
  assert (value t1 "CUDA_VERSION" = value m "CUDA_VERSION") as V1.
  { apply value_ext. rewrite F1. apply gate_table; [done|closed]. }
  assert (value t2 "CUDA_VERSION" = value m "CUDA_VERSION") as V2.
  { rewrite <- V1. apply value_ext. rewrite F2. apply gate_table; [done|closed]. }
  rewrite F3, gate_lookup, F2, gate_lookup, F1, gate_lookup by done.
  rewrite V2, V1.
  unfold undefined_at. rewrite gates_stubs_h. cbn [mbind list_bind fst snd app].
  rewrite app_nil_r.
  generalize (if bool_decide (value m "CUDA_VERSION" >= 3020)
              then undefs block_3020 else []).
  generalize (if bool_decide (value m "CUDA_VERSION" >= 4000)
              then undefs block_4000 else []).
  generalize (if bool_decide (value m "CUDA_VERSION" >= 6050)
              then undefs block_6050 else []).
  intros u3 u2 u1.
  repeat case_bool_decide; try done;
    exfalso; rewrite !elem_of_app in *; tauto.
Qed.

Lemma include_table (m : table) :
  defined m "C_STUBS_H" = false →
  (include_stubs sdk m).1 = (run sdk declarations (sdk_table sdk m)).1.
Proof.
  intros Hm. unfold include_stubs, stubs_h.
  rewrite run_cons; cbn [exec fst snd app].
  rewrite run_cons, exec_section; cbn [holds]. rewrite Hm; cbn [negb].
  rewrite run_nil; cbn [fst]. unfold guarded. by rewrite run_app.
Qed.

Lemma include_version (m : table) :
  defined m "C_STUBS_H" = false →
  value (include_stubs sdk m).1 "CUDA_VERSION" = value (sdk_table sdk m) "CUDA_VERSION".
Proof.
  intros Hm. destruct (include_first sdk m Hm) as [_ Ht].
  apply value_ext, Ht. closed.
Qed.

End tables.

Lemma include_lookup (sdk : string → table → table) (m : table) (y : string) :
  defined m "C_STUBS_H" = false →
  (include_stubs sdk m).1 !! y =
  if bool_decide (y ∈ undefined_at (value (include_stubs sdk m).1 "CUDA_VERSION"))
  then None else sdk_table sdk m !! y.
Proof.
  intros Hm. rewrite (include_version sdk m Hm), (include_table sdk m Hm).
  apply declarations_table.
Qed.

Lemma undefined_at_low (v : Z) : v < 3020 → undefined_at v = [].
Proof.
  intros Hv. unfold undefined_at. rewrite gates_stubs_h.
  cbn [mbind list_bind fst snd app].
  by rewrite !bool_decide_eq_false_2 by lia.
Qed.

Lemma declared_at_low (v : Z) : v < 3020 → declared_at v = wrappers.
Proof.
  intros Hv.
  destruct (declared_at_cases v) as [[_ ->]|[[? _]|[[? _]|[? _]]]]; [done|lia..].
Qed.

(** X1.  On a first inclusion, the macro table the header leaves is the one
    the SDK headers left, minus the names undefined by the version sections
    whose threshold [CUDA_VERSION] reaches: every other macro is untouched,
    and a name of a section that is skipped keeps its definition. *)
Theorem undefs_in_effect (sdk : string → table → table) (m : table) (y : string) :
  defined m "C_STUBS_H" = false →
  (include_stubs sdk m).1 !! y =
  if bool_decide (y ∈ undefined_at (value (include_stubs sdk m).1 "CUDA_VERSION"))
  then None else sdk_table sdk m !! y.
Proof.
  intros Hm.
  rewrite (include_version sdk m Hm), (include_table sdk m Hm).
  apply declarations_table.
Qed.

(** X1 on CUDA 3.2: [cuMemAlloc], of the section for 3020, is no macro any
    more; [cuCtxDestroy], of the section for 4000, is left as it was. *)
Lemma undefs_in_effect_witness :
  defined (∅ : table) "C_STUBS_H" = false ∧
  (include_stubs cuda_3_2 ∅).1 !! "cuMemAlloc" =
    (if bool_decide ("cuMemAlloc" ∈
          undefined_at (value (include_stubs cuda_3_2 ∅).1 "CUDA_VERSION"))
     then None else sdk_table cuda_3_2 ∅ !! "cuMemAlloc") ∧
  (include_stubs cuda_3_2 ∅).1 !! "cuMemAlloc" = None ∧
  "cuCtxDestroy" ∉ undefined_at (value (include_stubs cuda_3_2 ∅).1 "CUDA_VERSION").
Proof.
  split; [reflexivity|]. split.
  - apply (undefs_in_effect cuda_3_2 ∅ "cuMemAlloc"). reflexivity.
  - split; [by vm_compute | closed].
Defined.

(** X2.  When the SDK headers leave [CUDA_VERSION] undefined, it counts as
    0: a first inclusion then declares the eight wrappers and nothing else,
    and leaves the macro table exactly as the SDK headers left it. *)
Theorem version_undefined (sdk : string → table → table) (m : table) :
  defined m "C_STUBS_H" = false →
  sdk_table sdk m !! "CUDA_VERSION" = None →
  (include_stubs sdk m).1 = sdk_table sdk m ∧
  declared (include_stubs sdk m).2 = wrappers.
Proof.
  intros Hm Hv.
  assert (value (include_stubs sdk m).1 "CUDA_VERSION" < 3020) as Hlow.
  { rewrite (include_version sdk m Hm). unfold value. rewrite Hv. lia. }
  split.
  - apply map_eq. intros y. rewrite (include_lookup sdk m y Hm).
    rewrite (undefined_at_low _ Hlow).
    rewrite bool_decide_eq_false_2; [done | apply not_elem_of_nil].
  - rewrite (include_declared sdk m Hm). by apply declared_at_low.
Qed.

(** X2 with SDK headers that define nothing. *)
Lemma version_undefined_witness :
  defined (∅ : table) "C_STUBS_H" = false ∧
  sdk_table (λ _ t, t) ∅ !! "CUDA_VERSION" = None ∧
  (include_stubs (λ _ t, t) ∅).1 = sdk_table (λ _ t, t) ∅ ∧
  declared (include_stubs (λ _ t, t) ∅).2 = wrappers.
Proof.
  split; [reflexivity|]. split; [by vm_compute|].
  apply (version_undefined (λ _ t, t) ∅); [reflexivity | by vm_compute].
Defined.

(** X3.  On a first inclusion the prototypes handed to the compiler are, in
    the order of the file: the wrappers below 3020; then also those of the
    section for 3020; from 4000 on those of the section for 4000; from 6050
    on those of the section for 6050. *)
Theorem declarations_by_version (sdk : string → table → table) (m : table) :
  defined m "C_STUBS_H" = false →
  (value (include_stubs sdk m).1 "CUDA_VERSION" < 3020 →
    declared (include_stubs sdk m).2 = wrappers) ∧
  (3020 <= value (include_stubs sdk m).1 "CUDA_VERSION" < 4000 →
    declared (include_stubs sdk m).2 = wrappers ++ protos block_3020) ∧
  (4000 <= value (include_stubs sdk m).1 "CUDA_VERSION" < 6050 →
    declared (include_stubs sdk m).2 =
    wrappers ++ protos block_3020 ++ protos block_4000) ∧
  (6050 <= value (include_stubs sdk m).1 "CUDA_VERSION" →
    declared (include_stubs sdk m).2 =
    wrappers ++ protos block_3020 ++ protos block_4000 ++ protos block_6050).
Proof.
  intros Hm. rewrite (include_declared sdk m Hm).
  generalize (value (include_stubs sdk m).1 "CUDA_VERSION"). intros v.
  destruct (declared_at_cases v) as [[Hv ->]|[[Hv ->]|[[Hv ->]|[Hv ->]]]];
    repeat split; intros; (done || lia).
Qed.

(** X3 on CUDA 3.2, in the second range. *)
Lemma declarations_by_version_witness :
  defined (∅ : table) "C_STUBS_H" = false ∧
  3020 <= value (include_stubs cuda_3_2 ∅).1 "CUDA_VERSION" < 4000 ∧
  declared (include_stubs cuda_3_2 ∅).2 = wrappers ++ protos block_3020.
Proof.
  split; [reflexivity|]. split; [by vm_compute|].
  destruct (declarations_by_version cuda_3_2 ∅) as (_ & H & _); [reflexivity|].
  apply H. by vm_compute.
Defined.

(** ** The layout of the tokens *)

Lemma gate_decls (v n : Z) (g : list item) :
  Forall (λ t, is_Some (token_decl t)) (gate v n g).
Proof.
  unfold gate. case_bool_decide; [|constructor].
  apply Forall_fmap, Forall_true. by eexists.
Qed.

Lemma gate_elem (v n : Z) (g : list item) (d : fundecl) (b : bool) :
  TDecl (Proto d) b ∈ gate v n g → d ∈ protos g ∧ b = false.
Proof.
  unfold gate. case_bool_decide; [|by intros ?%elem_of_nil].
  by intros (d' & [= -> ->] & Hd)%list_elem_of_fmap.
Qed.

(** X4.  On a first inclusion the tokens are: the SDK headers
    ([host_defines.h] first and only for MinGW, then [cuda.h],
    [cudaProfiler.h], [cuda_runtime_api.h]); for C++ the opening of the
    linkage block; declarations only; for C++ the closing brace.  So no
    header is included after a declaration, and in C no linkage token is
    emitted at all. *)
Theorem token_layout (sdk : string → table → table) (m : table) :
  defined m "C_STUBS_H" = false →
  ∃ ds,
    Forall (λ t, is_Some (token_decl t)) ds ∧
    (include_stubs sdk m).2 =
    (TInclude <$> headers (defined m "__MINGW32__")) ++
    (if defined (include_stubs sdk m).1 "__cplusplus" then [TOpen] else []) ++
    ds ++
    (if defined (include_stubs sdk m).1 "__cplusplus" then [TClose] else []).
Proof.
  intros Hm. destruct (include_first sdk m Hm) as [Ho Ht].
  exists (((λ d, TDecl (Proto d) (defined (sdk_table sdk m) (name d))) <$> wrappers) ++
          gate (value (sdk_table sdk m) "CUDA_VERSION") 3020 block_3020 ++
          gate (value (sdk_table sdk m) "CUDA_VERSION") 4000 block_4000 ++
          gate (value (sdk_table sdk m) "CUDA_VERSION") 6050 block_6050).
  split.
  - rewrite !Forall_app. repeat split; try apply gate_decls.
    apply Forall_fmap, Forall_true. by eexists.
  - rewrite (defined_ext (include_stubs sdk m).1 (sdk_table sdk m) "__cplusplus")
      by (apply Ht; closed).
    rewrite Ho.
    unfold header_tokens, headers. rewrite fmap_app, <- !app_assoc.
    by destruct (defined m "__MINGW32__").
Qed.

(** X4 on CUDA 6.5 for MinGW, read as C++. *)
Lemma token_layout_witness :
  defined ({["__MINGW32__" := Empty; "__cplusplus" := Int 201103]} : table)
    "C_STUBS_H" = false ∧
  take 5 (include_stubs cuda_6_5
            {["__MINGW32__" := Empty; "__cplusplus" := Int 201103]}).2 =
    [TInclude "host_defines.h"; TInclude "cuda.h"; TInclude "cudaProfiler.h";
     TInclude "cuda_runtime_api.h"; TOpen] ∧
  ∃ ds,
    Forall (λ t, is_Some (token_decl t)) ds ∧
    (include_stubs cuda_6_5 {["__MINGW32__" := Empty; "__cplusplus" := Int 201103]}).2 =
    (TInclude <$> headers (defined ({["__MINGW32__" := Empty;
                                       "__cplusplus" := Int 201103]} : table)
                             "__MINGW32__")) ++
    (if defined (include_stubs cuda_6_5
                   {["__MINGW32__" := Empty; "__cplusplus" := Int 201103]}).1
          "__cplusplus" then [TOpen] else []) ++
    ds ++
    (if defined (include_stubs cuda_6_5
                   {["__MINGW32__" := Empty; "__cplusplus" := Int 201103]}).1
          "__cplusplus" then [TClose] else []).
Proof.
  split; [by vm_compute|]. split; [by vm_compute|].
  apply (token_layout cuda_6_5). by vm_compute.
Defined.

(** ** What is never declared, and what can be masked *)

(** X5.  The 24 prototypes the file has in comments are never declared:
    whatever the SDK headers and the macro table, none of their names is
    among the declared symbols. *)
Theorem silenced_never_declared (sdk : string → table → table) (m : table) :
  length (silenced stubs_h) = 24%nat ∧
  Forall (λ d, name d ∉ symbols (include_stubs sdk m).2) (silenced stubs_h).
Proof.
  split; [reflexivity|].
  assert (Forall (λ d, name d ∉ name <$> protos stubs_h) (silenced stubs_h)) as H
    by closed.
  rewrite Forall_forall in *. intros d Hd Hin. apply (H d Hd).
  eapply elem_of_sublist; [done|]. apply fmap_sublist, run_declared.
Qed.

Lemma header_wrapper_flag (mingw cxx : bool) (v : Z) (mask : string → bool)
    (d : fundecl) (b : bool) :
  d ∈ wrappers →
  TDecl (Proto d) b ∈ header_tokens mingw cxx v mask ↔ b = mask (name d).
Proof.
  intros Hd. destruct protos_apart as (A1 & A2 & A3).
  rewrite Forall_forall in A1, A2, A3.
  unfold header_tokens. rewrite !elem_of_app. split.
  - intros [H|[H|[H|[H|[H|[H|[H|H]]]]]]].
    + destruct mingw; [apply list_elem_of_singleton in H|apply elem_of_nil in H]; done.
    + by repeat (apply elem_of_cons in H as [?|H]; [done|]); apply elem_of_nil in H.
    + destruct cxx; [apply list_elem_of_singleton in H|apply elem_of_nil in H]; done.
    + by apply list_elem_of_fmap in H as (d' & [= -> ->] & _).
    + apply gate_elem in H as [H _]. by destruct (A1 _ H).
    + apply gate_elem in H as [H _]. destruct (A2 _ H). apply elem_of_app. by left.
    + apply gate_elem in H as [H _]. destruct (A3 _ H). apply elem_of_app. by left.
    + destruct cxx; [apply list_elem_of_singleton in H|apply elem_of_nil in H]; done.
  - intros ->. do 3 right. left. apply list_elem_of_fmap. by exists d.
Qed.

(** X6.  The wrappers are declared without an [#undef] before them: on a
    first inclusion a wrapper is declared masked exactly when the SDK
    headers left its name defined as a macro. *)
Theorem wrappers_unprotected (sdk : string → table → table) (m : table)
    (d : fundecl) (b : bool) :
  defined m "C_STUBS_H" = false →
  d ∈ wrappers →
  TDecl (Proto d) b ∈ (include_stubs sdk m).2 ↔
  b = defined (sdk_table sdk m) (name d).
Proof.
  intros Hm Hd. destruct (include_first sdk m Hm) as [-> _].
  by apply header_wrapper_flag.
Qed.

(** X6 with an SDK that makes a macro of [cuMemcpy2DHtoD]: the wrapper is
    declared masked. *)
Lemma wrappers_unprotected_witness :
  defined (∅ : table) "C_STUBS_H" = false ∧
  cuMemcpy2DHtoD ∈ wrappers ∧
  (TDecl (Proto cuMemcpy2DHtoD) true ∈ (include_stubs cuda_macro_wrapper ∅).2 ↔
   true = defined (sdk_table cuda_macro_wrapper ∅) (name cuMemcpy2DHtoD)) ∧
  TDecl (Proto cuMemcpy2DHtoD) true ∈ (include_stubs cuda_macro_wrapper ∅).2.
Proof.
  split; [reflexivity|]. split; [closed|]. split; [|closed].
  apply (wrappers_unprotected cuda_macro_wrapper ∅ cuMemcpy2DHtoD true);
    [reflexivity | closed].
Defined.


(** X8.  The three names whose [#undef] is commented out, [cuMemcpy2D],
    [cuMemcpy2DAsync] and [cuTexRefSetAddress2D], are left as the SDK
    headers defined them by a first inclusion at any version, and are never
    declared by the header. *)
Theorem kept_macros_untouched (sdk : string → table → table) (m : table) :
  defined m "C_STUBS_H" = false →
  kept_macros stubs_h = ["cuMemcpy2D"; "cuMemcpy2DAsync"; "cuTexRefSetAddress2D"] ∧
  Forall (λ x, (include_stubs sdk m).1 !! x = sdk_table sdk m !! x ∧
               x ∉ symbols (include_stubs sdk m).2)
    (kept_macros stubs_h).
Proof.
  intros Hm. split; [reflexivity|].
  destruct (include_first sdk m Hm) as [_ Ht].
  assert (Forall (λ x, (x ∉ reexported) ∧ (x ∉ name <$> protos stubs_h))
            (kept_macros stubs_h)) as H by closed.
  rewrite Forall_forall in *. intros x Hx. destruct (H x Hx) as [H1 H2].
  split; [by apply Ht|]. intros Hin. apply H2.
  eapply elem_of_sublist; [done|]. apply fmap_sublist, run_declared.
Qed.

(** X8 with an SDK that makes macros of [cuMemAlloc] and [cuMemcpy2D]: the
    first is undefined by the header, the second is kept. *)
Lemma kept_macros_untouched_witness :
  defined (∅ : table) "C_STUBS_H" = false ∧
  (include_stubs cuda_copy2D ∅).1 !! "cuMemAlloc" = None ∧
  (include_stubs cuda_copy2D ∅).1 !! "cuMemcpy2D" = Some (Tokens "cuMemcpy2D_v2") ∧
  kept_macros stubs_h = ["cuMemcpy2D"; "cuMemcpy2DAsync"; "cuTexRefSetAddress2D"] ∧
  Forall (λ x, (include_stubs cuda_copy2D ∅).1 !! x = sdk_table cuda_copy2D ∅ !! x ∧
               x ∉ symbols (include_stubs cuda_copy2D ∅).2)
    (kept_macros stubs_h).
Proof.
  split; [reflexivity|]. split; [by vm_compute|]. split; [by vm_compute|].
  apply (kept_macros_untouched cuda_copy2D ∅). reflexivity.
Defined.

(** ** The MinGW lines *)



